(** * A shallow embedding of the finance-tracker core (notes store,
    transaction ids, category normalizer, payment filter, amount
    normalization) and the properties its specification states. *)

From Stdlib Require Import QArith Ascii String.
From stdpp Require Import base gmap strings list fin_maps.

(* ------------------------------------------------------------------ *)
(** ** Python string primitives used by the code *)
(* ------------------------------------------------------------------ *)

Module PyStr.

(** Characters Python's [str.strip()] removes (the ASCII part of
    [str.isspace]): \t \n \v \f \r, \x1c-\x1f and the space. *)
Definition is_ws (c : ascii) : bool :=
  let n := nat_of_ascii c in
  ((9 <=? n) && (n <=? 13)) || ((28 <=? n) && (n <=? 32)).

(** [str.lstrip()] *)
Fixpoint lstrip (s : string) : string :=
  match s with
  | EmptyString => EmptyString
  | String c s' => if is_ws c then lstrip s' else s
  end.

(** [str.rstrip()] *)
Fixpoint rstrip (s : string) : string :=
  match s with
  | EmptyString => EmptyString
  | String c s' =>
      let r := rstrip s' in
      match r with
      | EmptyString => if is_ws c then EmptyString else String c EmptyString
      | _ => String c r
      end
  end.

(** [str.strip()] *)
Definition strip (s : string) : string := rstrip (lstrip s).

(** Truthiness of a Python string: non-empty. *)
Definition truthy (s : string) : bool :=
  match s with EmptyString => false | _ => true end.

(** Some character of [s] is not whitespace. *)
Fixpoint has_non_ws (s : string) : bool :=
  match s with
  | EmptyString => false
  | String c s' => negb (is_ws c) || has_non_ws s'
  end.

(** [str.lower()] on the ASCII letters.  Python maps non-ASCII letters
    too (['À'.lower()] is ['à'], ['ß'.upper()] is ['SS']): on a string
    that is not [is_ascii7] these functions differ from Python's. *)
Definition lower_char (c : ascii) : ascii :=
  let n := nat_of_ascii c in
  if (65 <=? n) && (n <=? 90) then ascii_of_nat (n + 32) else c.

Fixpoint lower (s : string) : string :=
  match s with
  | EmptyString => EmptyString
  | String c s' => String (lower_char c) (lower s')
  end.

(** [str.upper()] on the ASCII letters (used for case-insensitive
    regular-expression matching). *)
Definition upper_char (c : ascii) : ascii :=
  let n := nat_of_ascii c in
  if (97 <=? n) && (n <=? 122) then ascii_of_nat (n - 32) else c.

Fixpoint upper (s : string) : string :=
  match s with
  | EmptyString => EmptyString
  | String c s' => String (upper_char c) (upper s')
  end.

(** Every character is 7-bit ASCII: on such strings [is_ws], [lower]
    and [upper] agree with Python's [str.isspace], [str.lower] and
    [str.upper]. *)
Fixpoint is_ascii7 (s : string) : bool :=
  match s with
  | EmptyString => true
  | String c s' => (nat_of_ascii c <? 128) && is_ascii7 s'
  end.

Fixpoint is_prefix (p s : string) : bool :=
  match p, s with
  | EmptyString, _ => true
  | String _ _, EmptyString => false
  | String a p', String b s' => bool_decide (a = b) && is_prefix p' s'
  end.

(** Python's [needle in haystack] for strings. *)
Fixpoint contains (hay needle : string) : bool :=
  is_prefix needle hay ||
  match hay with
  | EmptyString => false
  | String _ hay' => contains hay' needle
  end.

(** [sep.join(parts)] *)
Fixpoint join (sep : string) (parts : list string) : string :=
  match parts with
  | [] => EmptyString
  | [p] => p
  | p :: ps => String.append p (String.append sep (join sep ps))
  end.

End PyStr.

(* ------------------------------------------------------------------ *)
(** ** notes_manager.py: the notes store *)
(* ------------------------------------------------------------------ *)

Module Notes.
Import PyStr.

(** [notes_data["metadata"]] *)
Record metadata := {
  version : string;
  created : string;
  last_updated : string
}.

(** [self.notes_data]: the JSON document held in memory.  Either key may
    be missing from a document read back with [json.load]. *)
Record notes_data := {
  transaction_notes : option (gmap string string);
  meta : option metadata
}.

(** What [self.notes_file] holds on disk. *)
Inductive file_state :=
  | FMissing                  (* FileNotFoundError on open *)
  | FCorrupt                  (* json.JSONDecodeError *)
  | FDoc (d : notes_data).    (* a well-formed document *)

(** The directory of the notes file: the file and the number of
    temporary files left in it. *)
Record fsys := {
  notes_file : file_state;
  temp_files : nat
}.

(** Where an I/O error strikes during [_save_notes_to_file].  After an
    error inside the inner [try], the handler runs [temp_file.close()]
    and [os.unlink(temp_file.name)]; [FailCleanup] is the case where that
    cleanup raises in turn, so the temporary file stays. *)
Inductive fault :=
  | NoFault
  | FailTempCreate     (* tempfile.NamedTemporaryFile raises *)
  | FailWrite          (* flock / json.dump / flush / fsync / close raises;
                          the handler's close and unlink succeed *)
  | FailMove           (* shutil.move raises; the handler's unlink succeeds *)
  | FailCleanup.       (* a write error leaves data in the buffer (a flush
                          on a full disk): the handler's temp_file.close()
                          raises again and os.unlink is skipped; or
                          os.unlink itself raises *)

(** A fault after which the temporary file is left behind. *)
Definition leaks_temp (f : fault) : bool :=
  match f with FailCleanup => true | _ => false end.

(** The structure built by [__init__]. *)
Definition default_data (now : string) : notes_data :=
  {| transaction_notes := Some ∅;
     meta := Some {| version := "1.0"; created := now; last_updated := now |} |}.

(** [_save_notes_to_file]: every exception is caught and printed, the
    method returns [None] in all cases. *)
Definition save_notes_to_file (f : fault) (now : string)
    (d : notes_data) (fs : fsys) : notes_data * fsys :=
  match meta d with
  | None => (d, fs)     (* KeyError on notes_data["metadata"], caught *)
  | Some m =>
      let d1 := {| transaction_notes := transaction_notes d;
                   meta := Some {| version := version m; created := created m;
                                   last_updated := now |} |} in
      match f with
      | FailTempCreate => (d1, fs)
      | _ =>
          (* NamedTemporaryFile(dir=..., delete=False) *)
          let tmp := S (temp_files fs) in
          match f with
          | NoFault =>
              (* shutil.move(temp_file.name, self.notes_file) *)
              (d1, {| notes_file := FDoc d1; temp_files := tmp - 1 |})
          | FailCleanup =>
              (* the cleanup raises; caught outside, the file stays *)
              (d1, {| notes_file := notes_file fs; temp_files := tmp |})
          | _ =>
              (* os.unlink(temp_file.name); raise e; caught outside *)
              (d1, {| notes_file := notes_file fs; temp_files := tmp - 1 |})
          end
      end
  end.

(** [self.notes_data.get("transaction_notes", {})] *)
Definition get_all_notes (d : notes_data) : gmap string string :=
  default ∅ (transaction_notes d).

(** [get_note] *)
Definition get_note (d : notes_data) (transaction_id : string) : string :=
  default "" (get_all_notes d !! transaction_id).

(** [set_note]: returns the boolean result with the new state. *)
Definition set_note (f : fault) (now : string) (transaction_id note : string)
    (d : notes_data) (fs : fsys) : bool * notes_data * fsys :=
  let m := match transaction_notes d with Some m => m | None => ∅ end in
  let m' := if truthy (strip note) then <[transaction_id := strip note]> m
            else delete transaction_id m in
  let d1 := {| transaction_notes := Some m'; meta := meta d |} in
  let '(d2, fs2) := save_notes_to_file f now d1 fs in
  (true, d2, fs2).

(** [load_notes]: a readable document replaces the in-memory data; a
    missing or corrupt file makes the code save the current data. *)
Definition load_notes (f : fault) (now : string)
    (d : notes_data) (fs : fsys) : notes_data * fsys :=
  match notes_file fs with
  | FDoc d' => (d', fs)
  | FMissing | FCorrupt => save_notes_to_file f now d fs
  end.

(** [clear_all_notes] *)
Definition clear_all_notes (f : fault) (now : string)
    (d : notes_data) (fs : fsys) : bool * notes_data * fsys :=
  let d1 := {| transaction_notes := Some ∅; meta := meta d |} in
  let '(d2, fs2) := save_notes_to_file f now d1 fs in
  (true, d2, fs2).

(** [_ensure_notes_file_exists]; [makedirs_ok] is [false] when
    [os.makedirs(os.path.dirname(self.notes_file), exist_ok=True)]
    raises: for a bare file name (the dirname is '') or a directory that
    cannot be created.  [None] is that exception, which nothing catches. *)
Definition ensure_notes_file_exists (makedirs_ok : bool) (f : fault) (now : string)
    (d : notes_data) (fs : fsys) : option (notes_data * fsys) :=
  if negb makedirs_ok then None
  else
    match notes_file fs with
    | FMissing => Some (save_notes_to_file f now d fs)
    | _ => Some (d, fs)
    end.

(** [__init__]; [f1] is the fault of the save in
    [_ensure_notes_file_exists], [f2] that of a save inside [load_notes];
    [None]: the constructor raises. *)
Definition init (makedirs_ok : bool) (f1 f2 : fault) (now : string) (fs : fsys)
    : option (notes_data * fsys) :=
  match ensure_notes_file_exists makedirs_ok f1 now (default_data now) fs with
  | None => None
  | Some (d1, fs1) => Some (load_notes f2 now d1 fs1)
  end.

(** The store operations, for reachability: [OpInit] opens a new
    [NotesManager] on the directory. *)
Inductive op :=
  | OpInit (makedirs_ok : bool) (f1 f2 : fault)
  | OpLoad (f : fault)
  | OpSet (f : fault) (transaction_id note : string)
  | OpClear (f : fault).

Definition step (now : string) (o : op) (s : notes_data * fsys) : notes_data * fsys :=
  let '(d, fs) := s in
  match o with
  | OpInit mk f1 f2 =>
      (* a constructor that raises builds no store: nothing changes *)
      match init mk f1 f2 now fs with Some s' => s' | None => (d, fs) end
  | OpLoad f => load_notes f now d fs
  | OpSet f i n => let '(_, d', fs') := set_note f now i n d fs in (d', fs')
  | OpClear f => let '(_, d', fs') := clear_all_notes f now d fs in (d', fs')
  end.

Fixpoint run (ops : list (string * op)) (s : notes_data * fsys) : notes_data * fsys :=
  match ops with
  | [] => s
  | (now, o) :: ops' => run ops' (step now o s)
  end.

(** [search_notes] *)
Definition search_notes (search_term : string) (d : notes_data) : gmap string string :=
  if negb (truthy (strip search_term)) then ∅
  else
    let search_term_lower := lower search_term in
    filter (λ kv : string * string, contains (lower kv.2) search_term_lower = true)
      (get_all_notes d).

(** The dictionary built by [get_statistics]. *)
Record statistics := {
  total_notes : nat;
  total_characters : nat;
  average_note_length : Q;
  stat_last_updated : option string;
  database_version : option string
}.

(** Python's [/] on integers: [ZeroDivisionError] when the divisor is 0. *)
Definition py_div (a b : nat) : option Q :=
  if Nat.eqb b 0 then None else Some (Qdiv (inject_Z (Z.of_nat a)) (inject_Z (Z.of_nat b))).

Definition sum_lengths (notes : gmap string string) : nat :=
  map_fold (λ _ note acc, acc + String.length note) 0 notes.

(** [get_statistics]; [None] stands for the exception a division by
    zero would raise. *)
Definition get_statistics (d : notes_data) : option statistics :=
  let notes := get_all_notes d in
  let avg := if bool_decide (notes = ∅) then Some (0#1)
             else py_div (sum_lengths notes) (size notes) in
  match avg with
  | None => None
  | Some a =>
      Some {| total_notes := size notes;
              total_characters := sum_lengths notes;
              average_note_length := a;
              stat_last_updated := last_updated <$> meta d;
              database_version := version <$> meta d |}
  end.

(** The store invariant: no note is empty or whitespace-only. *)
Definition notes_ok (d : notes_data) : Prop :=
  map_Forall (λ _ v, has_non_ws v = true) (get_all_notes d).

Definition file_ok (fs : fsys) : Prop :=
  match notes_file fs with
  | FDoc d => notes_ok d
  | _ => True
  end.

(** The faults an operation may meet. *)
Definition op_faults (o : op) : list fault :=
  match o with
  | OpInit _ f1 f2 => [f1; f2]
  | OpLoad f | OpSet f _ _ | OpClear f => [f]
  end.

End Notes.

(* ------------------------------------------------------------------ *)
(** ** notes_manager.py: [generate_transaction_id] *)
(* ------------------------------------------------------------------ *)

Module TxnId.
Import PyStr.

Section Hashing.
(** The values held in a pandas row, Python's [str()] on them, and
    [hashlib.sha256(data).hexdigest()]. *)
Variable V : Type.
Variable py_str : V -> string.
Variable sha256_hexdigest : list Byte.byte -> string.

(** [str(row.get(k, ''))] *)
Definition key_field (row : gmap string V) (k : string) : string :=
  match row !! k with
  | Some v => py_str v
  | None => ""
  end.

Definition key_names : list string :=
  ["date"; "amount"; "description"; "bank"; "source_file"].

(** [str.encode()]; strings are modelled as byte strings. *)
Definition encode (s : string) : list Byte.byte := list_byte_of_string s.

Definition generate_transaction_id (row : gmap string V) : string :=
  let key_fields := map (key_field row) key_names in
  let combined_string := join "|" key_fields in
  substring 0 16 (sha256_hexdigest (encode combined_string)).

End Hashing.
End TxnId.

(* ------------------------------------------------------------------ *)
(** ** category_normalizer.py *)
(* ------------------------------------------------------------------ *)

Module Category.
Import PyStr.

(** A Python dict with string keys and values, in insertion order. *)
Fixpoint dict_get (d : list (string * string)) (k : string) : option string :=
  match d with
  | [] => None
  | (k', v) :: d' => if String.eqb k k' then Some v else dict_get d' k
  end.

(** [d[k] = v]: an existing key keeps its position. *)
Fixpoint dict_set (d : list (string * string)) (k v : string) : list (string * string) :=
  match d with
  | [] => [(k, v)]
  | (k', v') :: d' =>
      if String.eqb k k' then (k, v) :: d' else (k', v') :: dict_set d' k v
  end.

(** [load_mapping] on the parsed JSON document (target -> sources). *)
Definition load_mapping (target_to_sources : list (string * list string))
    : list (string * string) :=
  fold_left
    (λ reverse_mapping ts,
       fold_left (λ rm source, dict_set rm (lower source) (lower ts.1))
         ts.2 reverse_mapping)
    target_to_sources [].

(** The document written by [create_default_mapping]. *)
Definition default_mapping : list (string * list string) :=
  [("dining", ["restaurant"; "restaurants"; "food"; "dining"; "cafe"; "fast food"; "takeout"]);
   ("groceries", ["grocery"; "groceries"; "supermarket"; "market"; "food store"]);
   ("transportation", ["gas"; "fuel"; "uber"; "lyft"; "taxi"; "bus"; "train"; "parking"]);
   ("shopping", ["amazon"; "walmart"; "target"; "store"; "retail"; "purchase"]);
   ("entertainment", ["netflix"; "spotify"; "hulu"; "movies"; "games"; "subscription"]);
   ("income", ["salary"; "paycheck"; "deposit"; "income"; "wages"; "bonus"]);
   ("housing", ["rent"; "mortgage"; "property"; "home"; "apartment"]);
   ("utilities", ["electric"; "water"; "internet"; "phone"; "cable"; "utilities"]);
   ("healthcare", ["medical"; "doctor"; "pharmacy"; "hospital"; "health"; "dental"]);
   ("insurance", ["insurance"; "coverage"; "policy"; "premium"]);
   ("fees", ["atm"; "fee"; "charge"; "penalty"; "service fee"]);
   ("transfer", ["transfer"; "payment"; "wire"; "check"; "deposit"])].

(** The loop over [self.category_mapping.items()] looking for a key
    contained in the category. *)
Fixpoint partial_match (items : list (string * string)) (category_lower : string) : string :=
  match items with
  | [] => "other"
  | (key, value) :: items' =>
      if contains category_lower key then value else partial_match items' category_lower
  end.

(** [normalize_category]; [None] is a value [pd.isna] accepts. *)
Definition normalize_category (category_mapping : list (string * string))
    (category : option string) : string :=
  match category with
  | None => "other"
  | Some c =>
      let category_lower := strip (lower c) in
      match dict_get category_mapping category_lower with
      | Some t => t
      | None => partial_match category_mapping category_lower
      end
  end.

(** The first entry of the reverse index whose key is a substring of
    the (lowered, stripped) category. *)
Definition first_substring_key (items : list (string * string)) (category_lower : string)
    : option (string * string) :=
  List.find (λ kv, contains category_lower kv.1) items.

End Category.

(* ------------------------------------------------------------------ *)
(** ** bank_reader.py: DataFrames, amount normalization, payment filter *)
(* ------------------------------------------------------------------ *)

Module Bank.
Import PyStr.

(** A DataFrame cell: a string, a number, or a missing value (NaN). *)
Inductive cell :=
  | CStr (s : string)
  | CNum (q : Q)
  | CNA.

(** Column dtypes: [object] holds strings; a numeric column (a CSV
    column with only numbers or empty cells) is [float64]. *)
Inductive dtype := DObject | DFloat.

Abbreviation row := (gmap string cell) (only parsing).

Record frame := {
  columns : list (string * dtype);
  rows : list row
}.

(** [c in df.columns] *)
Definition has_col (df : frame) (c : string) : bool :=
  existsb (λ cd, String.eqb cd.1 c) (columns df).

Definition col_dtype (df : frame) (c : string) : option dtype :=
  snd <$> List.find (λ cd, String.eqb cd.1 c) (columns df).

Definition cell_at (r : row) (c : string) : cell := default CNA (r !! c).

(** [df.empty]: no rows or no columns. *)
Definition is_empty (df : frame) : bool :=
  match rows df, columns df with
  | [], _ | _, [] => true
  | _, _ => false
  end.

(** Boolean indexing [df[mask]]: same columns and dtypes. *)
Definition keep (p : row -> bool) (df : frame) : frame :=
  {| columns := columns df; rows := List.filter p (rows df) |}.

(** [series == s] on one cell. *)
Definition cell_eq_str (x : cell) (s : string) : bool :=
  match x with CStr t => String.eqb t s | _ => false end.

(** [series.str.contains(pat, case=False, na=False)] on one cell of an
    object column; the patterns used have no regex metacharacters. *)
Definition cell_contains_ci (x : cell) (pat : string) : bool :=
  match x with CStr t => contains (lower t) (lower pat) | _ => false end.

Definition cell_is_str (x : cell) : bool :=
  match x with CStr _ => true | _ => false end.

Definition cell_is_na (x : cell) : bool :=
  match x with CNA => true | _ => false end.

(** Whether [df[col].str] is allowed.  pandas infers the kind of the
    column's current values ([lib.infer_dtype(values, skipna=True)]) and
    accepts only "string", "empty", "mixed" and the like: a float64
    column never, an object column unless its non-missing values are all
    numbers (at least one of them). *)
Definition str_accessor_ok (df : frame) (col : string) : bool :=
  match col_dtype df col with
  | Some DFloat => false
  | _ => existsb (λ r, cell_is_str (cell_at r col)) (rows df) ||
         forallb (λ r, cell_is_na (cell_at r col)) (rows df)
  end.

(** [df[~df[col].str.contains(pat, case=False, na=False)]]; the [.str]
    accessor raises [AttributeError] ([None]) where
    [str_accessor_ok] fails, whatever [na] says. *)
Definition drop_contains (col pat : string) (df : frame) : option frame :=
  if str_accessor_ok df col
  then Some (keep (λ r, negb (cell_contains_ci (cell_at r col) pat)) df)
  else None.

Fixpoint drop_contains_all (col : string) (pats : list string) (df : frame) : option frame :=
  match pats with
  | [] => Some df
  | pat :: pats' =>
      match drop_contains col pat df with
      | None => None
      | Some df' => drop_contains_all col pats' df'
      end
  end.

Definition wells_fargo_patterns : list string :=
  ["CREDIT CARD PAYMENT"; "CC PAYMENT"; "CARD PAYMENT"].

Definition generic_payment_patterns : list string :=
  ["PAYMENT THANK YOU"; "AUTOPAY"; "ONLINE PAYMENT"; "MOBILE PAYMENT";
   "ACH DEPOSIT INTERNET TRANSFER"].

Definition not_type_payment (tcol : string) (r : row) : bool :=
  negb (cell_eq_str (cell_at r tcol) "Payment").

Definition not_type_and_category_payment (tcol ccol : string) (r : row) : bool :=
  negb (cell_eq_str (cell_at r tcol) "Payment" && cell_eq_str (cell_at r ccol) "Payment").

(** [filter_credit_card_payments]; [filter_payments] is the reader's
    flag, [None] an exception escaping the method. *)
Definition filter_credit_card_payments (filter_payments : bool)
    (df : frame) (bank_name : string) : option frame :=
  if is_empty df || negb filter_payments then Some df
  else
    let df1 :=
      if String.eqb bank_name "chase" then
        Some (if has_col df "Type" then keep (not_type_payment "Type") df
              else if has_col df "type" then keep (not_type_payment "type") df
              else df)
      else if String.eqb bank_name "apple_card" then
        Some (if has_col df "Type" && has_col df "Category" then
                keep (not_type_and_category_payment "Type" "Category") df
              else if has_col df "type" && has_col df "category" then
                keep (not_type_and_category_payment "type" "category") df
              else df)
      else if String.eqb bank_name "wells_fargo" then
        (if has_col df "description" then
           drop_contains_all "description" wells_fargo_patterns df
         else if has_col df "merchant" then
           drop_contains_all "merchant" wells_fargo_patterns df
         else Some df)
      else Some df in
    match df1 with
    | None => None
    | Some df2 =>
        if has_col df2 "description" then
          drop_contains_all "description" generic_payment_patterns df2
        else Some df2
    end.

(** [amount_handling]: the [type] key selects the shape. *)
Inductive amount_config :=
  | SingleColumn (column : string) (sign_convention : option string)
  | SplitColumns (debit_column credit_column : string)
  | OtherType (type_name : string).

(** [df[name] = values]: replaces the column or appends it. *)
Definition set_column (name : string) (dt : dtype) (f : row -> cell) (df : frame) : frame :=
  {| columns := if has_col df name
                then map (λ cd, if String.eqb cd.1 name then (name, dt) else cd) (columns df)
                else columns df ++ [(name, dt)];
     rows := map (λ r, <[name := f r]> r) (rows df) |}.

Definition of_num (o : option Q) : cell :=
  match o with Some q => CNum q | None => CNA end.

(** Unary minus on a numeric column: NaN stays NaN. *)
Definition neg_cell (x : cell) : cell :=
  match x with CNum q => CNum (Qopp q) | _ => x end.

Section Amounts.
(** [pd.to_numeric] on one string, [None] when it cannot be parsed. *)
Variable parse_numeric : string -> option Q.

(** [pd.to_numeric(x, errors='coerce')] on one cell. *)
Definition to_numeric (x : cell) : option Q :=
  match x with
  | CNum q => Some q
  | CNA => None
  | CStr s => parse_numeric s
  end.

(** [.fillna(0)] after [to_numeric] *)
Definition to_numeric_or_zero (x : cell) : Q := default 0%Q (to_numeric x).

Definition normalize_amount_column (df : frame) (amount_config : amount_config) : frame :=
  match amount_config with
  | SingleColumn amount_col sc =>
      if has_col df amount_col then
        let df1 := set_column "amount" DFloat
                     (λ r, of_num (to_numeric (cell_at r amount_col))) df in
        let sign_convention := default "negative_for_debits" sc in
        if String.eqb sign_convention "positive_for_purchases_negative_for_payments" then df1
        else if String.eqb sign_convention "negative_for_debits" then
          set_column "amount" DFloat (λ r, neg_cell (cell_at r "amount")) df1
        else df1
      else df
  | SplitColumns debit_col credit_col =>
      if has_col df debit_col && has_col df credit_col then
        set_column "amount" DFloat
          (λ r, CNum (Qplus (to_numeric_or_zero (cell_at r debit_col))
                            (to_numeric_or_zero (cell_at r credit_col)))) df
      else df
  | OtherType _ => df
  end.

End Amounts.
(** A text column, as [pd.read_csv] makes one: not numeric, and holding
    strings and missing values only. *)
Definition text_column (df : frame) (c : string) : bool :=
  match col_dtype df c with
  | Some DFloat => false
  | _ => forallb (λ r, cell_is_str (cell_at r c) || cell_is_na (cell_at r c)) (rows df)
  end.

(** Every column [filter_credit_card_payments] searches with
    [.str.contains] is a text column. *)
Definition filter_reads_text (df : frame) (bank_name : string) : bool :=
  (negb (String.eqb bank_name "wells_fargo") ||
     (if has_col df "description" then text_column df "description"
      else if has_col df "merchant" then text_column df "merchant" else true)) &&
  (negb (has_col df "description") || text_column df "description").

(** The rows the payment filter is meant to drop, written from the
    rules of the specification with the column names the code checks:
    the bank rule reads [Type] (else [type]) and, for Apple Card, the
    pair [Type]/[Category] (else [type]/[category]); the generic phrases
    are looked up in a column named [description]. *)
Definition payment_row (df : frame) (bank_name : string) (r : row) : bool :=
  let is_payment c := cell_eq_str (cell_at r c) "Payment" in
  let desc_has pats c := existsb (λ p, cell_contains_ci (cell_at r c) p) pats in
  let bank_rule :=
    if String.eqb bank_name "chase" then
      (if has_col df "Type" then is_payment "Type"
       else if has_col df "type" then is_payment "type" else false)
    else if String.eqb bank_name "apple_card" then
      (if has_col df "Type" && has_col df "Category" then
         is_payment "Type" && is_payment "Category"
       else if has_col df "type" && has_col df "category" then
         is_payment "type" && is_payment "category"
       else false)
    else if String.eqb bank_name "wells_fargo" then
      (if has_col df "description" then desc_has wells_fargo_patterns "description"
       else if has_col df "merchant" then desc_has wells_fargo_patterns "merchant"
       else false)
    else false in
  bank_rule ||
  (has_col df "description" && desc_has generic_payment_patterns "description").

End Bank.

(* ------------------------------------------------------------------ *)
(** ** notes_manager.py: the DataFrame helpers *)
(* ------------------------------------------------------------------ *)

Module NotesFrame.
Import PyStr Notes Bank.

Section Frames.
(** Python's [str()] on a float, and [hashlib.sha256(data).hexdigest()]. *)
Variable py_str_num : Q -> string.
Variable sha256_hexdigest : list Byte.byte -> string.

(** [str()] on one cell; NaN prints as "nan". *)
Definition py_str_cell (c : cell) : string :=
  match c with
  | CStr s => s
  | CNum q => py_str_num q
  | CNA => "nan"
  end.

(** A row as [df.apply(..., axis=1)] and [df.iterrows()] pass it: a
    Series over the frame's columns, NaN where the row has no value. *)
Definition series (df : frame) (r : row) : gmap string cell :=
  list_to_map (map (λ cd, (cd.1, cell_at r cd.1)) (columns df)).

(** [add_transaction_ids] *)
Definition add_transaction_ids (df : frame) : frame :=
  if is_empty df then df
  else set_column "transaction_id" DObject
         (λ r, CStr (TxnId.generate_transaction_id cell py_str_cell sha256_hexdigest
                       (series df r))) df.

(** [self.get_note] on one cell of the [transaction_id] column: the
    keys of the notes dict are strings, so no other value finds one. *)
Definition note_of_cell (d : notes_data) (c : cell) : string :=
  match c with
  | CStr s => get_note d s
  | _ => ""
  end.

(** [add_notes_to_dataframe] *)
Definition add_notes_to_dataframe (d : notes_data) (df : frame) : frame :=
  if is_empty df then df
  else
    let df1 := if has_col df "transaction_id" then df else add_transaction_ids df in
    set_column "notes" DObject (λ r, CStr (note_of_cell d (cell_at r "transaction_id"))) df1.

(** The loop of [update_notes_from_dataframe]; [flt n] is the fault
    met by the save of the [n]-th call to [set_note].  The ids are the
    strings [add_transaction_ids] writes; a frame holding another id
    value is outside this model ([None]). *)
Fixpoint update_rows (flt : nat -> fault) (now : string) (n : nat) (rs : list row)
    (results : gmap string bool) (d : notes_data) (fs : fsys)
    : option (gmap string bool * notes_data * fsys) :=
  match rs with
  | [] => Some (results, d, fs)
  | r :: rs' =>
      match cell_at r "transaction_id" with
      | CStr transaction_id =>
          let note := py_str_cell (cell_at r "notes") in
          let '(ok, d1, fs1) := set_note (flt n) now transaction_id note d fs in
          update_rows flt now (S n) rs' (<[transaction_id := ok]> results) d1 fs1
      | _ => None
      end
  end.

(** [update_notes_from_dataframe] *)
Definition update_notes_from_dataframe (flt : nat -> fault) (now : string) (df : frame)
    (d : notes_data) (fs : fsys) : option (gmap string bool * notes_data * fsys) :=
  if is_empty df || negb (has_col df "transaction_id") || negb (has_col df "notes")
  then Some (∅, d, fs)
  else update_rows flt now 0 (rows df) ∅ d fs.

End Frames.
End NotesFrame.

(** Views used to state properties of the DataFrame helpers. *)
Module NotesFrameViews.
Import PyStr Notes Bank NotesFrame.

(** What [get_note] returns after [set_note] of [note]. *)
Definition stored_note (note : string) : string :=
  if has_non_ws note then strip note else "".

(** The note ([str()] of the cell) of the last row carrying id [k]. *)
Fixpoint last_note (py_str_num : Q -> string) (rs : list row) (k : string) : option string :=
  match rs with
  | [] => None
  | r :: rs' =>
      match last_note py_str_num rs' k with
      | Some n => Some n
      | None =>
          match cell_at r "transaction_id" with
          | CStr t => if String.eqb t k then Some (py_str_cell py_str_num (cell_at r "notes")) else None
          | _ => None
          end
      end
  end.

(** Every note of the map is non-blank and equal to its [strip()]: what
    [set_note] stores. *)
Definition map_stripped (m : gmap string string) : bool :=
  forallb (λ kv, has_non_ws kv.2 && String.eqb (strip kv.2) kv.2) (map_to_list m).

(** The frame's [transaction_id] column, if any, holds strings. *)
Definition ids_are_strings (df : frame) : bool :=
  negb (has_col df "transaction_id") ||
  forallb (λ r, match cell_at r "transaction_id" with CStr _ => true | _ => false end) (rows df).

End NotesFrameViews.

(** [backup_notes] works on Python objects by reference: the model of
    this method keeps the dicts in a heap. *)
Module NotesHeap.

Abbreviation loc := nat (only parsing).

(** A value held in a dict: a reference to another dict, or a string. *)
Inductive value :=
  | VRef (l : loc)
  | VStr (s : string).

Abbreviation obj := (gmap string value) (only parsing).
Abbreviation heap := (gmap loc obj) (only parsing).

(** [backup_notes(backup_path)] with [self.notes_data] at [self_loc];
    [fresh] is where [.copy()] allocates the new dict, [write_ok] whether
    opening and writing the backup file succeed.  Every exception is
    caught and gives [False]. *)
Definition backup_notes (now : string) (write_ok : bool) (self_loc fresh : loc) (h : heap)
    : bool * heap :=
  match h !! self_loc with
  | None => (false, h)
  | Some o =>
      (* backup_data = self.notes_data.copy(): a new dict, same values *)
      let h1 := <[fresh := o]> h in
      match o !! "metadata" with
      | Some (VRef ml) =>
          match h1 !! ml with
          | Some mo =>
              (* backup_data["metadata"]["backup_created"] = now *)
              let h2 := <[ml := <["backup_created" := VStr now]> mo]> h1 in
              (write_ok, h2)
          | None => (false, h1)
          end
      | _ => (false, h1)   (* KeyError, or a string has no item assignment *)
      end
  end.

End NotesHeap.

(* ------------------------------------------------------------------ *)
(** ** category_normalizer.py: the category column *)
(* ------------------------------------------------------------------ *)

Module CategoryColumn.
Import PyStr Category.

(** [.unique()]: first occurrences, in order. *)
Fixpoint unique_from (seen : list string) (xs : list string) : list string :=
  match xs with
  | [] => []
  | x :: xs' =>
      if existsb (String.eqb x) seen then unique_from seen xs'
      else x :: unique_from (x :: seen) xs'
  end.

(** [get_unique_categories]: the column is [None] when the frame lacks
    it; its cells are the values as strings, [None] for a missing one. *)
Definition get_unique_categories (column : option (list (option string))) : list string :=
  match column with
  | None => []
  | Some cells => unique_from [] (omap (λ c, c) cells)
  end.

(** [get_unmapped_categories] *)
Definition get_unmapped_categories (category_mapping : list (string * string))
    (column : option (list (option string))) : list string :=
  match column with
  | None => []
  | Some _ =>
      List.filter (λ category, String.eqb (normalize_category category_mapping (Some category)) "other")
        (get_unique_categories column)
  end.

(** The (source, target) pairs [load_mapping] visits, in order. *)
Definition mapping_pairs (target_to_sources : list (string * list string))
    : list (string * string) :=
  List.concat (map (λ ts, map (λ source, (lower source, lower ts.1)) ts.2) target_to_sources).

(** The value of the last pair with key [k]. *)
Definition assoc_last (pairs : list (string * string)) (k : string) : option string :=
  dict_get (rev pairs) k.

End CategoryColumn.

(* ------------------------------------------------------------------ *)
(** ** bank_reader.py: schemas, normalization, combination *)
(* ------------------------------------------------------------------ *)

Module Schema.
Import PyStr Category Bank.

Definition present {A} (o : option A) : bool :=
  match o with Some _ => true | None => false end.

(** The [amount_handling] dict of a format, with string values; an
    absent key is [None], and [ah_other_keys] records keys the code does
    not read. *)
Record amount_handling_dict := {
  ah_type : option string;
  ah_column : option string;
  ah_sign_convention : option string;
  ah_debit_column : option string;
  ah_credit_column : option string;
  ah_other_keys : bool
}.

(** Truthiness of the dict: some key present. *)
Definition amount_handling_truthy (a : amount_handling_dict) : bool :=
  present (ah_type a) || present (ah_column a) || present (ah_sign_convention a) ||
  present (ah_debit_column a) || present (ah_credit_column a) || ah_other_keys a.

(** The key lookups [normalize_amount_column] makes before it reads the
    frame: [amount_config['type']], then [amount_config['column']], or
    [amount_config['debit_column']] and [amount_config['credit_column']];
    [None] is the [KeyError] of a missing key. *)
Definition amount_config_of (a : amount_handling_dict) : option amount_config :=
  match ah_type a with
  | None => None
  | Some t =>
      if String.eqb t "single_column" then
        match ah_column a with
        | Some c => Some (SingleColumn c (ah_sign_convention a))
        | None => None
        end
      else if String.eqb t "split_columns" then
        match ah_debit_column a, ah_credit_column a with
        | Some dc, Some cc => Some (SplitColumns dc cc)
        | _, _ => None
        end
      else Some (OtherType t)
  end.

(** One entry of [schema_mappings]; an absent key is [None].
    [other_keys] records keys the code does not read. *)
Record schema_mapping := {
  format_name : option string;
  column_mappings : option (list (string * string));
  amount_handling : option amount_handling_dict;
  date_format : option string;
  other_keys : bool
}.

(** A parsed [*_schema.json]. *)
Record schema_config := {
  bank_name : option string;
  schema_mappings : option (list schema_mapping)
}.

(** A config file as [json.load] sees it. *)
Inductive config_file :=
  | CfgError                      (* open or json.load raises *)
  | CfgJson (c : schema_config).

(** [load_schema_configs] over the files [glob] lists, starting from
    the dict [__init__] creates. *)
Definition load_schema_configs (folder_exists : bool) (config_files : list config_file)
    (schema_configs : gmap string schema_config) : gmap string schema_config :=
  if negb folder_exists then schema_configs
  else
    fold_left
      (λ sc cf,
         match cf with
         | CfgError => sc
         | CfgJson config =>
             match bank_name config with
             | Some b => if truthy b then <[b := config]> sc else sc
             | None => sc
             end
         end)
      config_files schema_configs.

Definition mapping_columns (m : schema_mapping) : list (string * string) :=
  default [] (column_mappings m).

(** [detect_csv_format] *)
Definition detect_csv_format (schema_configs : gmap string schema_config)
    (df : frame) (bank : string) : option schema_mapping :=
  match schema_configs !! bank with
  | None => None
  | Some config =>
      List.find (λ m, forallb (has_col df) (map snd (mapping_columns m)))
        (default [] (schema_mappings config))
  end.

(** Truthiness of the mapping dict: some key present. *)
Definition mapping_truthy (m : schema_mapping) : bool :=
  present (format_name m) || present (column_mappings m) || present (amount_handling m) ||
  present (date_format m) || other_keys m.

(** [normalized_df[common] = df[original]]: the values come from the
    frame given to [normalize_dataframe], row by row. *)
Definition copy_column (src : frame) (original common : string) (dst : frame) : frame :=
  {| columns := columns (set_column common (default DObject (col_dtype src original))
                           (λ _, CNA) dst);
     rows := zip_with (λ r r0, <[common := cell_at r0 original]> r) (rows dst) (rows src) |}.

Definition copy_columns (df : frame) (cms : list (string * string)) (ndf : frame) : frame :=
  fold_left
    (λ acc cm,
       if has_col df cm.2 && negb (String.eqb cm.1 cm.2) then copy_column df cm.2 cm.1 acc
       else acc)
    cms ndf.

Definition is_na (c : cell) : bool :=
  match c with CNA => true | _ => false end.

Section Normalize.
(** [pd.to_numeric] on a string, [pd.to_datetime(x, format=f,
    errors='coerce')] and [pd.to_datetime(x, errors='coerce')] on one
    cell ([CNA] for NaT). *)
Variable parse_numeric : string -> option Q.
Variable to_datetime_fmt : string -> cell -> cell.
Variable to_datetime : cell -> cell.

(** [normalize_date_column]; a datetime64 column, like a float64 one,
    is not an object column, hence [DFloat]. *)
Definition normalize_date_column (df : frame) (date_col date_format : string) : frame :=
  if has_col df date_col then
    let df1 := set_column "date" DFloat (λ r, to_datetime_fmt date_format (cell_at r date_col)) df in
    if forallb (λ r, is_na (cell_at r "date")) (rows df1)
    then set_column "date" DFloat (λ r, to_datetime (cell_at r date_col)) df1
    else df1
  else df.

(** [normalize_dataframe]; [None] is the [KeyError] of a matching
    mapping without [format_name], or of an [amount_handling] dict
    without a key its [type] needs. *)
Definition normalize_dataframe (schema_configs : gmap string schema_config)
    (df : frame) (bank : string) : option frame :=
  if is_empty df then Some df
  else
    match detect_csv_format schema_configs df bank with
    | None => Some df
    | Some m =>
        if negb (mapping_truthy m) then Some df
        else
          match format_name m with
          | None => None
          | Some _ =>
              let cms := mapping_columns m in
              let df1 := copy_columns df cms df in
              let df2 := match amount_handling m with
                         | Some a =>
                             if amount_handling_truthy a then
                               match amount_config_of a with
                               | Some ac => Some (normalize_amount_column parse_numeric df1 ac)
                               | None => None
                               end
                             else Some df1
                         | None => Some df1
                         end in
              match df2 with
              | None => None
              | Some df2 =>
                  let fmt := default "%Y-%m-%d" (date_format m) in
                  let df3 := match dict_get cms "date" with
                             | Some date_col =>
                                 if truthy date_col then normalize_date_column df2 date_col fmt
                                 else df2
                             | None => df2
                             end in
                  Some (set_column "bank" DObject (λ _, CStr bank) df3)
              end
          end
    end.

(** A CSV file of the bank folder: unreadable, or its basename and the
    frame [pd.read_csv] returns. *)
Inductive csv_file :=
  | CsvError
  | CsvFrame (basename : string) (df : frame).

Definition dtype_eqb (a b : dtype) : bool :=
  match a, b with
  | DObject, DObject | DFloat, DFloat => true
  | _, _ => false
  end.

(** A column of [pd.concat]: a column found in several frames keeps
    their common dtype, else it becomes object. *)
Definition add_concat_column (cols : list (string * dtype)) (cd : string * dtype)
    : list (string * dtype) :=
  if existsb (λ c, String.eqb c.1 cd.1) cols then
    map (λ c, if String.eqb c.1 cd.1 then (c.1, if dtype_eqb c.2 cd.2 then c.2 else DObject)
              else c) cols
  else cols ++ [cd].

(** [pd.concat(frames, ignore_index=True)] *)
Definition pd_concat (dfs : list frame) : frame :=
  {| columns := fold_left (λ cols df, fold_left add_concat_column (columns df) cols) dfs [];
     rows := List.concat (map rows dfs) |}.

Definition empty_frame : frame := {| columns := []; rows := [] |}.

(** The body of the loop of [read_bank_statements] on one file;
    [None] is an exception, caught and printed by the loop. *)
Definition read_one (filter_payments : bool) (schema_configs : gmap string schema_config)
    (bank : string) (f : csv_file) : option frame :=
  match f with
  | CsvError => None
  | CsvFrame basename df =>
      let df0 := set_column "source_file" DObject (λ _, CStr basename) df in
      let df_filtered := if filter_payments
                         then filter_credit_card_payments filter_payments df0 bank
                         else Some df0 in
      match df_filtered with
      | None => None
      | Some df1 => normalize_dataframe schema_configs df1 bank
      end
  end.

(** [read_bank_statements] *)
Definition read_bank_statements (filter_payments : bool)
    (schema_configs : gmap string schema_config) (bank : string)
    (csv_files : list csv_file) : frame :=
  match omap (read_one filter_payments schema_configs bank) csv_files with
  | [] => empty_frame
  | all_data => pd_concat all_data
  end.

End Normalize.

Definition common_columns : list string :=
  ["date"; "amount"; "category"; "description"; "bank"; "source_file"].

(** [get_combined_data] over [self.bank_data] once loaded, in dict
    order. *)
Definition get_combined_data (bank_data : list (string * frame)) : frame :=
  match List.filter (λ df, negb (is_empty df)) (map snd bank_data) with
  | [] => empty_frame
  | all_data =>
      fold_left (λ acc col, if has_col acc col then acc else set_column col DObject (λ _, CNA) acc)
        common_columns (pd_concat all_data)
  end.

(** The [amount_handling] of [m] is absent, empty, or has the keys its
    [type] needs. *)
Definition amount_keys_ok (m : schema_mapping) : bool :=
  match amount_handling m with
  | Some a => negb (amount_handling_truthy a) || present (amount_config_of a)
  | None => true
  end.

(** The config of the last readable file that names bank [b]. *)
Fixpoint last_config (config_files : list config_file) (b : string) : option schema_config :=
  match config_files with
  | [] => None
  | cf :: cfs =>
      match last_config cfs b with
      | Some c => Some c
      | None =>
          match cf with
          | CfgJson c => if bool_decide (bank_name c = Some b) && truthy b then Some c else None
          | CfgError => None
          end
      end
  end.

End Schema.

(* ------------------------------------------------------------------ *)
(** ** Concrete inputs: the scenarios of the test scripts *)
(* ------------------------------------------------------------------ *)

Module Fixtures.
Import Notes Bank Schema.

(** An empty directory: no notes file yet. *)
Definition fs0 : fsys := {| notes_file := FMissing; temp_files := 0 |}.

(** A one-column frame of amounts, as [pd.read_csv] gives it. *)
Definition frame_of (col : string) (amounts : list Q) : frame :=
  {| columns := [(col, DFloat)]; rows := map (λ q, {[ col := CNum q ]}) amounts |}.

Definition chase_row (tdate desc cat type_ : string) (amount : Q) : row :=
  list_to_map [("Transaction Date", CStr tdate); ("Post Date", CStr "07/14/2025");
               ("Description", CStr desc); ("Category", CStr cat);
               ("Type", CStr type_); ("Amount", CNum amount); ("Memo", CStr "")].

(** [test_chase_filtering] in tests/test_payment_filtering.py *)
Definition chase_data : frame :=
  {| columns := [("Transaction Date", DObject); ("Post Date", DObject);
                 ("Description", DObject); ("Category", DObject);
                 ("Type", DObject); ("Amount", DFloat); ("Memo", DObject)];
     rows := [chase_row "07/13/2025" "Payment Thank You-Mobile" "" "Payment" (18313#100);
              chase_row "07/12/2025" "HCTRA EZ TAG REBILL" "Travel" "Sale" (-1000#100);
              chase_row "07/13/2025" "H-E-B #659" "Groceries" "Sale" (-2139#100)] |}.



(** A notes column edited in the app: two rows share an id, the last
    one with its note cleared to NaN. *)
Definition notes_frame : frame :=
  {| columns := [("transaction_id", DObject); ("notes", DObject)];
     rows := [list_to_map [("transaction_id", CStr "a1"); ("notes", CStr " rent ")];
              list_to_map [("transaction_id", CStr "a1"); ("notes", CNA)]] |}.

(** A notes store holding one note. *)
Definition chase_notes : notes_data :=
  {| transaction_notes := Some {[ "a1" := "rent" ]};
     meta := Some {| version := "1.0"; created := "t0"; last_updated := "t0" |} |}.

(** A directory whose notes file holds [chase_notes]. *)
Definition fs_notes : fsys := {| notes_file := FDoc chase_notes; temp_files := 0 |}.

(** An object [description] column holding a payment phrase and a
    number, as a DataFrame built in code may. *)
Definition mixed_descriptions : frame :=
  {| columns := [("description", DObject)];
     rows := [{[ "description" := CStr "ACH DEPOSIT INTERNET TRANSFER" ]};
              {[ "description" := CNum 5 ]}] |}.

(** A normalized Chase statement: the card payment, an autopay debit
    and a purchase, with text [type] and [description] columns. *)
Definition normalized_statement : frame :=
  {| columns := [("type", DObject); ("description", DObject); ("amount", DFloat)];
     rows := [list_to_map [("type", CStr "Payment");
                           ("description", CStr "Payment Thank You-Mobile");
                           ("amount", CNum (18313#100))];
              list_to_map [("type", CStr "Sale"); ("description", CStr "AUTOPAY 240713");
                           ("amount", CNum (-5000#100))];
              list_to_map [("type", CStr "Sale"); ("description", CStr "H-E-B #659");
                           ("amount", CNum (-2139#100))]] |}.

(** A statement as read from a CSV, before ids and notes are added. *)
Definition plain_frame : frame :=
  {| columns := [("date", DObject); ("amount", DFloat); ("description", DObject)];
     rows := [list_to_map [("date", CStr "2025-07-13"); ("amount", CNum (-2139#100));
                           ("description", CStr "H-E-B")]] |}.

(** A schema for the Chase export of [chase_data]. *)
Definition chase_mapping : schema_mapping :=
  {| format_name := Some "chase_credit_card";
     column_mappings := Some [("date", "Transaction Date"); ("description", "Description");
                              ("category", "Category"); ("amount", "Amount")];
     amount_handling := Some {| ah_type := Some "single_column"; ah_column := Some "Amount";
                                ah_sign_convention :=
                                  Some "positive_for_purchases_negative_for_payments";
                                ah_debit_column := None; ah_credit_column := None;
                                ah_other_keys := false |};
     date_format := Some "%m/%d/%Y";
     other_keys := false |}.

Definition chase_schema : gmap string schema_config :=
  {[ "chase" := {| bank_name := Some "chase"; schema_mappings := Some [chase_mapping] |} ]}.

(** An export whose date column is already named [date]. *)
Definition dated_frame : frame :=
  {| columns := [("date", DObject); ("amount", DFloat)];
     rows := [list_to_map [("date", CStr "2025-07-13"); ("amount", CNum 5)]] |}.

(** A notes store in the heap: the outer dict at 0, its metadata dict at 1. *)
Definition live_heap : gmap nat (gmap string NotesHeap.value) :=
  {[ 0 := {[ "metadata" := NotesHeap.VRef 1 ]}; 1 := {[ "version" := NotesHeap.VStr "1.0" ]} ]}.

End Fixtures.

(* ================================================================== *)
(** * Properties *)
(* ================================================================== *)

Module PyStrFacts.
Import PyStr.

Lemma has_non_ws_lstrip (s : string) : has_non_ws (lstrip s) = has_non_ws s.
Proof.
  induction s as [|c s IH]; simpl; [done|].
  destruct (is_ws c) eqn:E; simpl; [by rewrite IH|by rewrite E].
Qed.

Lemma rstrip_non_ws (s : string) :
  has_non_ws (rstrip s) = has_non_ws s /\ truthy (rstrip s) = has_non_ws s.
Proof.
  induction s as [|c s [IH1 IH2]]; simpl; [done|].
  destruct (rstrip s) as [|c' r] eqn:R; simpl in *.
  - rewrite <- IH1. destruct (is_ws c) eqn:E; simpl; rewrite ?E; auto.
  - rewrite IH1, <- IH2, orb_true_r. auto.
Qed.

Lemma truthy_strip (s : string) : truthy (strip s) = has_non_ws s.
Proof. unfold strip. rewrite (proj2 (rstrip_non_ws _)). apply has_non_ws_lstrip. Qed.

Lemma has_non_ws_strip (s : string) : has_non_ws (strip s) = has_non_ws s.
Proof. unfold strip. rewrite (proj1 (rstrip_non_ws _)). apply has_non_ws_lstrip. Qed.

Lemma has_non_ws_nonempty (s : string) : has_non_ws s = true -> s <> "".
Proof. destruct s; simpl; congruence. Qed.

End PyStrFacts.

Module NotesFacts.
Import PyStr PyStrFacts Notes Fixtures.

(** Saving never touches the note map. *)
Lemma save_notes (f : fault) now d fs :
  transaction_notes (save_notes_to_file f now d fs).1 = transaction_notes d.
Proof. unfold save_notes_to_file. destruct (meta d), f; reflexivity. Qed.

(** A failed save leaves the notes file alone. *)
Lemma save_failed_file (f : fault) now d fs :
  f <> NoFault -> notes_file (save_notes_to_file f now d fs).2 = notes_file fs.
Proof. intros Hf. unfold save_notes_to_file. destruct (meta d), f; simpl; congruence. Qed.

(** A save leaves a temporary file behind exactly when its cleanup
    fails after the metadata update went through. *)
Lemma save_temp (f : fault) now d fs :
  temp_files (save_notes_to_file f now d fs).2 =
  temp_files fs + (if leaks_temp f then match meta d with Some _ => 1 | None => 0 end else 0).
Proof. unfold save_notes_to_file. destruct (meta d), f; simpl; lia. Qed.

Lemma get_all_notes_some (d : notes_data) (m : gmap string string) :
  transaction_notes d = Some m -> get_all_notes d = m.
Proof. unfold get_all_notes. by intros ->. Qed.

(** The map [set_note] installs. *)
Definition set_map (transaction_id note : string) (m : gmap string string) :=
  if truthy (strip note) then <[transaction_id := strip note]> m
  else delete transaction_id m.

Lemma set_note_notes (f : fault) now i note d fs :
  let '(ok, d', _) := set_note f now i note d fs in
  ok = true /\ transaction_notes d' = Some (set_map i note (get_all_notes d)).
Proof.
  unfold set_note, set_map, get_all_notes.
  assert (Hm : default ∅ (transaction_notes d) =
               match transaction_notes d with Some m => m | None => ∅ end)
    by (destruct (transaction_notes d); reflexivity).
  rewrite Hm.
  match goal with |- context [save_notes_to_file f now ?d1 fs] =>
    pose proof (save_notes f now d1 fs) as H;
    destruct (save_notes_to_file f now d1 fs) as [d2 fs2] end.
  simpl in *. split; [done|]. by rewrite H.
Qed.




(** C2: [set(id, "hello")] then [get(id) = "hello"]; a whitespace-only
    note removes [id], and [get(id) = ""]. *)
Theorem set_get_roundtrip (f : fault) (now i : string) (d : notes_data) (fs : fsys) :
  (let '(ok, d', _) := set_note f now i "hello" d fs in
   ok = true /\ get_note d' i = "hello") /\
  (forall note : string, has_non_ws note = false ->
   let '(ok, d', _) := set_note f now i note d fs in
   ok = true /\ get_note d' i = "" /\ get_all_notes d' !! i = None).
Proof.
  split.
  - pose proof (set_note_notes f now i "hello" d fs) as H.
    destruct (set_note _ _ _ _ _ _) as [[ok d'] fs']. destruct H as [-> H].
    split; [done|]. unfold get_note, get_all_notes. rewrite H. simpl.
    unfold set_map. simpl. by rewrite lookup_insert_eq.
  - intros note Hn.
    pose proof (set_note_notes f now i note d fs) as H.
    destruct (set_note _ _ _ _ _ _) as [[ok d'] fs']. destruct H as [-> H].
    unfold get_note, get_all_notes. rewrite H. simpl.
    unfold set_map. rewrite truthy_strip, Hn, lookup_delete_eq. done.
Qed.

Lemma set_get_roundtrip_witness :
  has_non_ws "  " = false /\
  (let '(ok, d', _) := set_note NoFault "t" "t1" "  " (default_data "t0") fs0 in
   ok = true /\ get_note d' "t1" = "" /\ get_all_notes d' !! "t1" = None).
Proof.
  split; [reflexivity|].
  apply (proj2 (set_get_roundtrip NoFault "t" "t1" (default_data "t0") fs0) "  ").
  reflexivity.
Defined.

Lemma save_ok (f : fault) now d fs :
  notes_ok d -> file_ok fs ->
  notes_ok (save_notes_to_file f now d fs).1 /\ file_ok (save_notes_to_file f now d fs).2.
Proof.
  intros Hd Hfs. unfold save_notes_to_file.
  destruct (meta d), f; simpl; split; assumption.
Qed.

Lemma set_map_ok (i note : string) (m : gmap string string) :
  map_Forall (λ _ v, has_non_ws v = true) m ->
  map_Forall (λ _ v, has_non_ws v = true) (set_map i note m).
Proof.
  intros Hm. unfold set_map. destruct (truthy (strip note)) eqn:E.
  - apply map_Forall_insert_2; [|done].
    rewrite has_non_ws_strip, <- truthy_strip. done.
  - by apply map_Forall_delete.
Qed.

Lemma default_ok now : notes_ok (default_data now).
Proof. unfold notes_ok, get_all_notes. simpl. apply map_Forall_empty. Qed.

Lemma load_ok (f : fault) now d fs :
  notes_ok d -> file_ok fs ->
  notes_ok (load_notes f now d fs).1 /\ file_ok (load_notes f now d fs).2.
Proof.
  intros Hd Hfs. unfold load_notes.
  destruct (notes_file fs) eqn:E.
  - by apply save_ok.
  - by apply save_ok.
  - unfold file_ok in Hfs. rewrite E in Hfs.
    simpl. split; [done|]. unfold file_ok. by rewrite E.
Qed.

Lemma step_ok now (o : op) (s : notes_data * fsys) :
  notes_ok s.1 -> file_ok s.2 ->
  notes_ok (step now o s).1 /\ file_ok (step now o s).2.
Proof.
  destruct s as [d fs]. simpl. intros Hd Hfs.
  destruct o as [mk f1 f2|f|f i n|f]; simpl.
  - unfold init, ensure_notes_file_exists. destruct mk; cbn [negb]; [|split; assumption].
    destruct (notes_file fs) eqn:E.
    + destruct (save_ok f1 now (default_data now) fs (default_ok now) Hfs) as [H1 H2].
      destruct (save_notes_to_file f1 now (default_data now) fs). by apply load_ok.
    + by apply load_ok; [apply default_ok|].
    + by apply load_ok; [apply default_ok|].
  - by apply load_ok.
  - unfold set_note.
    match goal with |- context [save_notes_to_file f now ?d1 fs] =>
      assert (Hd1 : notes_ok d1);
      [|pose proof (save_ok f now d1 fs Hd1 Hfs) as H;
        destruct (save_notes_to_file f now d1 fs)] end.
    + unfold notes_ok, get_all_notes. simpl.
      assert (Hm : match transaction_notes d with Some m => m | None => ∅ end =
                   get_all_notes d) by (unfold get_all_notes; by destruct (transaction_notes d)).
      rewrite Hm. apply set_map_ok. exact Hd.
    + exact H.
  - unfold clear_all_notes.
    match goal with |- context [save_notes_to_file f now ?d1 fs] =>
      assert (Hd1 : notes_ok d1);
      [|pose proof (save_ok f now d1 fs Hd1 Hfs) as H;
        destruct (save_notes_to_file f now d1 fs)] end.
    + unfold notes_ok, get_all_notes. simpl. apply map_Forall_empty.
    + exact H.
Qed.

Lemma chase_notes_ok : notes_ok chase_notes.
Proof. unfold notes_ok, get_all_notes. simpl. apply map_Forall_singleton. reflexivity. Qed.

Lemma get_note_empty_iff (d : notes_data) (k : string) :
  notes_ok d -> (get_note d k = "" <-> get_all_notes d !! k = None).
Proof.
  intros Hd. unfold get_note. destruct (get_all_notes d !! k) as [v|] eqn:E; simpl.
  - pose proof (Hd k v E) as Hv. simpl in Hv.
    split; [|discriminate]. intros ->. discriminate.
  - tauto.
Qed.

(** C4 (as the code behaves): [set], [clear], [load] and
    [initialize] preserve the invariant that no note is empty or
    whitespace-only, in memory and in a readable notes file, starting
    from a state where both satisfy it ([load] copies the file's map
    without checking it); under the invariant [get] returns [""] exactly
    for the absent keys. *)
Theorem store_invariant (ops : list (string * op)) (d : notes_data) (fs : fsys) :
  notes_ok d -> file_ok fs ->
  let '(d', fs') := run ops (d, fs) in
  notes_ok d' /\ file_ok fs' /\
  (forall k : string, get_note d' k = "" <-> get_all_notes d' !! k = None).
Proof.
  revert d fs. induction ops as [|[now o] ops IH]; intros d fs Hd Hfs; cbn [run].
  - split; [done|]. split; [done|]. intros k. by apply get_note_empty_iff.
  - destruct (step_ok now o (d, fs) Hd Hfs) as [H1 H2].
    destruct (step now o (d, fs)) as [d1 fs1]. by apply IH.
Qed.

Lemma store_invariant_witness :
  notes_ok chase_notes /\ file_ok fs_notes /\
  (let '(d', fs') := run [("t1", OpInit true NoFault FailCleanup);
                          ("t2", OpSet FailCleanup "a2" " x "); ("t3", OpSet NoFault "a1" "  ");
                          ("t4", OpLoad NoFault); ("t5", OpInit false NoFault NoFault);
                          ("t6", OpSet FailMove "b" "y"); ("t7", OpClear FailWrite)]
                        (chase_notes, fs_notes) in
   notes_ok d' /\ file_ok fs' /\
   (forall k : string, get_note d' k = "" <-> get_all_notes d' !! k = None)).
Proof.
  split; [apply chase_notes_ok|]. split; [apply chase_notes_ok|].
  apply store_invariant; apply chase_notes_ok.
Defined.

(** C4 as stated fails: initializing over a notes file that holds an
    empty note keeps it, and [get] returns [""] for a present key. *)
Lemma store_invariant_counterexample :
  let bad := {| transaction_notes := Some {["t1" := ""]}; meta := None |} in
  let '(d', _) := run [("t", OpInit true NoFault NoFault)]
                      (default_data "t0", {| notes_file := FDoc bad; temp_files := 0 |}) in
  get_all_notes d' !! "t1" = Some "" /\ get_note d' "t1" = "".
Proof. vm_compute. auto. Qed.

(** C9: a blank search term gives the empty map; any other term gives
    exactly the notes containing it, compared in lower case. *)
Theorem search_notes_spec (search_term : string) (d : notes_data) :
  (has_non_ws search_term = false -> search_notes search_term d = ∅) /\
  (has_non_ws search_term = true ->
   forall k v : string, search_notes search_term d !! k = Some v <->
     get_all_notes d !! k = Some v /\ contains (lower v) (lower search_term) = true).
Proof.
  unfold search_notes. rewrite truthy_strip.
  split; intros H; rewrite H; simpl; [done|].
  intros k v. by rewrite map_lookup_filter_Some.
Qed.

Lemma search_notes_spec_witness :
  has_non_ws " " = false /\ search_notes " " (default_data "t0") = ∅ /\
  has_non_ws "Gas" = true /\
  (forall k v : string, search_notes "Gas" (default_data "t0") !! k = Some v <->
     get_all_notes (default_data "t0") !! k = Some v /\ contains (lower v) (lower "Gas") = true).
Proof.
  split; [reflexivity|].
  split; [apply (proj1 (search_notes_spec " " (default_data "t0"))); reflexivity|].
  split; [reflexivity|].
  apply (proj2 (search_notes_spec "Gas" (default_data "t0"))). reflexivity.
Defined.

(** C10: [get_statistics] never divides by zero: an empty map gives
    zeros, any other map the character total over the note count. *)
Theorem statistics_no_div_zero (d : notes_data) :
  exists s, get_statistics d = Some s /\
  total_notes s = size (get_all_notes d) /\
  total_characters s = sum_lengths (get_all_notes d) /\
  (get_all_notes d = ∅ ->
   average_note_length s = 0#1 /\ total_notes s = 0 /\ total_characters s = 0) /\
  (get_all_notes d <> ∅ ->
   average_note_length s =
     Qdiv (inject_Z (Z.of_nat (total_characters s))) (inject_Z (Z.of_nat (total_notes s)))).
Proof.
  unfold get_statistics. destruct (decide (get_all_notes d = ∅)) as [E|E].
  - rewrite bool_decide_true by done.
    eexists; split; [reflexivity|]. simpl.
    split; [done|]. split; [done|]. split; [|by intros].
    intros _. rewrite E. unfold sum_lengths. rewrite map_size_empty, map_fold_empty. done.
  - rewrite bool_decide_false by done. unfold py_div.
    assert (Hs : size (get_all_notes d) <> 0) by (by apply map_size_non_empty_iff).
    destruct (Nat.eqb_spec (size (get_all_notes d)) 0) as [Hz|_]; [contradiction|].
    eexists; split; [reflexivity|]. simpl.
    split; [done|]. split; [done|]. split; [by intros|]. done.
Qed.

Lemma statistics_no_div_zero_witness :
  get_all_notes (default_data "t0") = ∅ /\
  exists s, get_statistics (default_data "t0") = Some s /\
  average_note_length s = 0#1 /\ total_notes s = 0 /\ total_characters s = 0.
Proof.
  split; [reflexivity|].
  destruct (statistics_no_div_zero (default_data "t0")) as [s [H1 [_ [_ [H4 _]]]]].
  exists s. split; [exact H1|]. apply H4. reflexivity.
Defined.

End NotesFacts.

Module TxnIdFacts.
Import PyStr TxnId.

(** C3: the id is the first 16 characters of the hex digest of the five
    key fields, as strings, joined by "|"; two rows agreeing on those
    five strings get the same id, and no other column changes it. *)
Theorem generate_transaction_id_pure (V : Type) (py_str : V -> string)
    (sha256_hexdigest : list Byte.byte -> string) (row1 row2 : gmap string V) :
  generate_transaction_id V py_str sha256_hexdigest row1 =
    substring 0 16 (sha256_hexdigest
      (encode (join "|" (map (key_field V py_str row1) key_names)))) /\
  ((forall k, k ∈ key_names -> key_field V py_str row1 k = key_field V py_str row2 k) ->
   generate_transaction_id V py_str sha256_hexdigest row1 =
   generate_transaction_id V py_str sha256_hexdigest row2) /\
  (forall (k : string) (v : V), k ∉ key_names ->
   generate_transaction_id V py_str sha256_hexdigest (<[k := v]> row1) =
   generate_transaction_id V py_str sha256_hexdigest row1).
Proof.
  split; [reflexivity|]. split.
  - intros H. unfold generate_transaction_id. do 4 f_equal.
    apply map_ext_in. intros k Hk. apply H. by apply list_elem_of_In.
  - intros k v Hk. unfold generate_transaction_id. do 4 f_equal.
    apply map_ext_in. intros k' Hk'. unfold key_field.
    rewrite lookup_insert_ne; [done|].
    intros ->. apply Hk. by apply list_elem_of_In.
Qed.

Lemma generate_transaction_id_pure_witness :
  let row1 : gmap string string := {[ "date" := "2025-07-13"; "amount" := "21.39" ]} in
  let row2 : gmap string string := <[ "notes" := "lunch" ]> row1 in
  (forall k, k ∈ key_names -> key_field string (λ s, s) row1 k = key_field string (λ s, s) row2 k) /\
  generate_transaction_id string (λ s, s) string_of_list_byte row1 =
  generate_transaction_id string (λ s, s) string_of_list_byte row2.
Proof.
  simpl.
  assert (Hk : forall k, k ∈ key_names ->
    key_field string (λ s, s) {[ "date" := "2025-07-13"; "amount" := "21.39" ]} k =
    key_field string (λ s, s) (<[ "notes" := "lunch" ]> {[ "date" := "2025-07-13"; "amount" := "21.39" ]}) k).
  { intros k Hk. rewrite list_elem_of_In in Hk. simpl in Hk.
    repeat (destruct Hk as [<-|Hk]; [reflexivity|]). contradiction. }
  split; [exact Hk|].
  apply (proj1 (proj2 (generate_transaction_id_pure string (λ s, s) string_of_list_byte _ _))).
  exact Hk.
Defined.

End TxnIdFacts.

Module AmountFacts.
Import PyStr Bank Fixtures.

Lemma rows_set_column (name : string) (dt : dtype) (f : row -> cell) (df : frame) :
  rows (set_column name dt f df) = map (λ r, <[name := f r]> r) (rows df).
Proof. reflexivity. Qed.

Lemma cell_at_insert (r : row) (c : string) (x : cell) : cell_at (<[c := x]> r) c = x.
Proof. unfold cell_at. by rewrite lookup_insert_eq. Qed.

Lemma neg_cell_of_num (o : option Q) : neg_cell (of_num o) = of_num (Qopp <$> o).
Proof. by destruct o. Qed.

(** C5: [normalize_amount_column] with the configured columns present.
    A single column is parsed (unparsable cells become NaN); Apple
    Card's convention keeps the sign, [negative_for_debits] (also the
    default) negates; split columns add debit and credit with missing
    or unparsable cells read as 0.  The worked examples of the spec
    hold for every string parser. *)
Theorem normalize_amount_spec (parse_numeric : string -> option Q) (df : frame) :
  (forall col, has_col df col = true ->
   rows (normalize_amount_column parse_numeric df
           (SingleColumn col (Some "positive_for_purchases_negative_for_payments"))) =
   map (λ r, <["amount" := of_num (to_numeric parse_numeric (cell_at r col))]> r) (rows df)) /\
  (forall col sc, has_col df col = true -> sc = None \/ sc = Some "negative_for_debits" ->
   rows (normalize_amount_column parse_numeric df (SingleColumn col sc)) =
   map (λ r, <["amount" := of_num (Qopp <$> to_numeric parse_numeric (cell_at r col))]> r)
       (rows df)) /\
  (forall debit_col credit_col,
   has_col df debit_col = true -> has_col df credit_col = true ->
   rows (normalize_amount_column parse_numeric df (SplitColumns debit_col credit_col)) =
   map (λ r, <["amount" := CNum (Qplus (to_numeric_or_zero parse_numeric (cell_at r debit_col))
                                       (to_numeric_or_zero parse_numeric (cell_at r credit_col)))]> r)
       (rows df)) /\
  map (λ r, cell_at r "amount")
    (rows (normalize_amount_column parse_numeric (frame_of "Amount (USD)" [800#100; -18553#100])
             (SingleColumn "Amount (USD)" (Some "positive_for_purchases_negative_for_payments")))) =
    [CNum (800#100); CNum (-18553#100)] /\
  map (λ r, cell_at r "amount")
    (rows (normalize_amount_column parse_numeric (frame_of "Amount" [-2139#100])
             (SingleColumn "Amount" None))) =
    [CNum (2139#100)].
Proof.
  split; [|split; [|split; [|split]]].
  - intros col Hc. cbn [normalize_amount_column]. rewrite Hc. reflexivity.
  - intros col sc Hc Hsc. cbn [normalize_amount_column]. rewrite Hc.
    destruct Hsc as [-> | ->]; cbn -[set_column];
      rewrite !rows_set_column, map_map; apply map_ext; intros r;
      by rewrite insert_insert_eq, cell_at_insert, neg_cell_of_num.
  - intros dc cc Hd Hc. cbn [normalize_amount_column]. rewrite Hd, Hc. reflexivity.
  - reflexivity.
  - reflexivity.
Qed.

Lemma normalize_amount_spec_witness :
  has_col (frame_of "Amount" [-2139#100]) "Amount" = true /\
  rows (normalize_amount_column (λ _, None) (frame_of "Amount" [-2139#100])
          (SingleColumn "Amount" None)) =
  map (λ r, <["amount" := of_num (Qopp <$> to_numeric (λ _, None) (cell_at r "Amount"))]> r)
      (rows (frame_of "Amount" [-2139#100])).
Proof.
  split; [reflexivity|].
  apply (proj1 (proj2 (normalize_amount_spec (λ _, None) (frame_of "Amount" [-2139#100])))).
  - reflexivity.
  - left. reflexivity.
Defined.

End AmountFacts.

Module FilterFacts.
Import PyStr Bank Fixtures.

Lemma filter_filter {A} (p q : A -> bool) (l : list A) :
  List.filter q (List.filter p l) = List.filter (λ x, p x && q x) l.
Proof.
  induction l as [|x l IH]; simpl; [done|].
  destruct (p x); simpl; [destruct (q x); simpl|]; by rewrite IH.
Qed.

Lemma keep_keep (p q : row -> bool) (df : frame) :
  keep q (keep p df) = keep (λ r, p r && q r) df.
Proof. unfold keep. simpl. by rewrite filter_filter. Qed.

Lemma keep_ext (p q : row -> bool) (df : frame) :
  (forall r, p r = q r) -> keep p df = keep q df.
Proof.
  intros H. unfold keep. f_equal.
  induction (rows df) as [|r l IH]; simpl; [done|]. by rewrite H, IH.
Qed.

Lemma keep_true (df : frame) : keep (λ _, true) df = df.
Proof.
  destruct df as [cols rs]. unfold keep. simpl. f_equal.
  induction rs as [|r rs IH]; simpl; [done|]. by rewrite IH.
Qed.

Lemma col_dtype_keep (p : row -> bool) (df : frame) (c : string) :
  col_dtype (keep p df) c = col_dtype df c.
Proof. reflexivity. Qed.

Lemma has_col_keep (p : row -> bool) (df : frame) (c : string) :
  has_col (keep p df) c = has_col df c.
Proof. reflexivity. Qed.

(** Dropping rows for a list of patterns: whatever comes back is the
    frame without the rows matching one of them. *)
Lemma drop_contains_all_some (col : string) (pats : list string) (df df' : frame) :
  drop_contains_all col pats df = Some df' ->
  df' = keep (λ r, negb (existsb (λ p, cell_contains_ci (cell_at r col) p) pats)) df.
Proof.
  revert df. induction pats as [|p pats IH]; intros df; simpl.
  - intros [= <-]. symmetry. apply keep_true.
  - unfold drop_contains. destruct (str_accessor_ok df col); [|discriminate].
    intros H. rewrite (IH _ H), keep_keep. apply keep_ext. intros r.
    by destruct (cell_contains_ci _ p).
Qed.

Lemma drop_contains_all_cases (col : string) (pats : list string) (df : frame) :
  drop_contains_all col pats df = None \/
  drop_contains_all col pats df =
    Some (keep (λ r, negb (existsb (λ p, cell_contains_ci (cell_at r col) p) pats)) df).
Proof.
  destruct (drop_contains_all col pats df) as [df'|] eqn:E; [right|by left].
  by rewrite (drop_contains_all_some _ _ _ _ E).
Qed.

Lemma text_column_keep (p : row -> bool) (df : frame) (c : string) :
  text_column df c = true -> text_column (keep p df) c = true.
Proof.
  unfold text_column. rewrite col_dtype_keep.
  destruct (col_dtype df c) as [[|]|]; try done; unfold keep; simpl; intros H;
    apply List.forallb_forall; intros r Hr; apply List.filter_In in Hr;
    exact (proj1 (List.forallb_forall _ _) H r (proj1 Hr)).
Qed.

(** A text column passes the [.str] check. *)
Lemma text_str_ok (df : frame) (c : string) :
  text_column df c = true -> str_accessor_ok df c = true.
Proof.
  unfold text_column, str_accessor_ok.
  destruct (col_dtype df c) as [[|]|]; try done;
    generalize (rows df) as rs; intros rs H; induction rs as [|r rs IH]; simpl in *; try done;
    apply andb_prop in H as [H1 H2]; destruct (cell_at r c); simpl in *; try done; by apply IH.
Qed.

Lemma drop_contains_all_text (col : string) (pats : list string) (df : frame) :
  text_column df col = true ->
  drop_contains_all col pats df =
    Some (keep (λ r, negb (existsb (λ p, cell_contains_ci (cell_at r col) p) pats)) df).
Proof.
  revert df. induction pats as [|p pats IH]; intros df Ht; simpl.
  - by rewrite keep_true.
  - unfold drop_contains. rewrite (text_str_ok _ _ Ht).
    rewrite IH by (by apply text_column_keep). rewrite keep_keep. f_equal.
    apply keep_ext. intros r. by destruct (cell_contains_ci _ p).
Qed.

Lemma filter_reads_text_keep (p : row -> bool) (df : frame) (bank_name : string) :
  filter_reads_text df bank_name = true -> filter_reads_text (keep p df) bank_name = true.
Proof.
  unfold filter_reads_text. rewrite !has_col_keep.
  intros H. apply andb_prop in H as [H1 H2]. apply andb_true_intro. split.
  - destruct (String.eqb _ _); simpl in *; [|done].
    destruct (has_col df "description"); [by apply text_column_keep|].
    destruct (has_col df "merchant"); [by apply text_column_keep|done].
  - destruct (has_col df "description"); simpl in *; [by apply text_column_keep|done].
Qed.

Ltac filter_split df :=
  repeat first
    [ progress rewrite ?has_col_keep, ?col_dtype_keep, ?keep_keep
    | match goal with |- context [drop_contains_all ?c ?ps ?d] =>
        let E := fresh "E" in destruct (drop_contains_all_cases c ps d) as [E|E]; rewrite E
      end
    | match goal with H : has_col df ?c = _ |- context [has_col df ?c] => rewrite H end
    | match goal with |- context [has_col df ?c] => destruct (has_col df c) eqn:? end
    | progress simpl ].

Ltac filter_split_text df :=
  repeat first
    [ progress rewrite ?has_col_keep, ?col_dtype_keep, ?keep_keep
    | rewrite drop_contains_all_text;
        [|repeat apply text_column_keep; simpl in *;
          repeat match goal with H : _ && _ = true |- _ => apply andb_prop in H as [? ?] end;
          assumption]
    | match goal with H : has_col df ?c = _ |- context [has_col df ?c] => rewrite H end
    | match goal with H : has_col df ?c = _, Ht : context [has_col df ?c] |- _ =>
        rewrite H in Ht end
    | match goal with |- context [has_col df ?c] => destruct (has_col df c) eqn:? end
    | progress simpl ].

Ltac bool_atoms :=
  repeat match goal with
  | |- context [cell_contains_ci ?x ?p] => destruct (cell_contains_ci x p)
  | |- context [cell_eq_str ?x ?p] => destruct (cell_eq_str x p)
  end.

Local Opaque keep has_col col_dtype cell_contains_ci cell_eq_str drop_contains_all text_column.

(** Whatever the filter returns (with filtering on and a non-empty
    frame) is the frame without the rows [payment_row] flags. *)
Lemma filter_ccp_result (filter_payments : bool) (df : frame) (bank_name : string) :
  match filter_credit_card_payments filter_payments df bank_name with
  | None => True
  | Some df1 => df1 = if is_empty df || negb filter_payments then df
                      else keep (λ r, negb (payment_row df bank_name r)) df
  end.
Proof.
  unfold filter_credit_card_payments, payment_row,
    not_type_payment, not_type_and_category_payment.
  destruct (is_empty df || negb filter_payments); [done|].
  destruct (String.eqb bank_name "chase") eqn:Ec;
  [apply String.eqb_eq in Ec; subst bank_name|];
  [|destruct (String.eqb bank_name "apple_card") eqn:Ea;
    [apply String.eqb_eq in Ea; subst bank_name|];
    [|destruct (String.eqb bank_name "wells_fargo") eqn:Ew;
      [apply String.eqb_eq in Ew; subst bank_name|]]];
  rewrite ?Ec, ?Ea, ?Ew; filter_split df;
  try exact I; try reflexivity;
  first [ apply keep_ext | rewrite <- (keep_true df) at 1; apply keep_ext ];
  intros r; bool_atoms; reflexivity.
Qed.

(** On text columns the filter does not raise. *)
Lemma filter_ccp_text (filter_payments : bool) (df : frame) (bank_name : string) :
  is_empty df || negb filter_payments = false -> filter_reads_text df bank_name = true ->
  filter_credit_card_payments filter_payments df bank_name =
  Some (keep (λ r, negb (payment_row df bank_name r)) df).
Proof.
  intros He Ht. unfold filter_reads_text in Ht.
  unfold filter_credit_card_payments, payment_row,
    not_type_payment, not_type_and_category_payment.
  rewrite He.
  destruct (String.eqb bank_name "chase") eqn:Ec;
  [apply String.eqb_eq in Ec; subst bank_name|];
  [|destruct (String.eqb bank_name "apple_card") eqn:Ea;
    [apply String.eqb_eq in Ea; subst bank_name|];
    [|destruct (String.eqb bank_name "wells_fargo") eqn:Ew;
      [apply String.eqb_eq in Ew; subst bank_name|]]];
  rewrite ?Ec, ?Ea, ?Ew in Ht |- *; filter_split_text df;
  try reflexivity;
  f_equal; first [ apply keep_ext | rewrite <- (keep_true df) at 1; apply keep_ext ];
  intros r; bool_atoms; reflexivity.
Qed.

Local Transparent keep has_col col_dtype cell_contains_ci cell_eq_str drop_contains_all text_column.

Lemma payment_row_keep (p : row -> bool) (df : frame) (bank_name : string) (r : row) :
  payment_row (keep p df) bank_name r = payment_row df bank_name r.
Proof. reflexivity. Qed.

(** C6 (as the code behaves): with filtering off the frame comes back
    unchanged.  With filtering on, a second pass over the result never
    removes further rows: when it returns, it returns the result of the
    first pass, and it does return when every column the filter searches
    is a text column.  It may raise where the first pass did not. *)
Theorem filter_idempotent (filter_payments : bool) (df : frame) (bank_name : string) :
  (forall df1, filter_credit_card_payments filter_payments df bank_name = Some df1 ->
   (forall df2, filter_credit_card_payments filter_payments df1 bank_name = Some df2 ->
    df2 = df1) /\
   (filter_reads_text df bank_name = true ->
    filter_credit_card_payments filter_payments df1 bank_name = Some df1)) /\
  filter_credit_card_payments false df bank_name = Some df.
Proof.
  split.
  - intros df1 H1. pose proof (filter_ccp_result filter_payments df bank_name) as R.
    rewrite H1 in R.
    destruct (is_empty df || negb filter_payments) eqn:E; subst df1.
    + split; [|intros _; exact H1]. intros df2 H2. rewrite H1 in H2. by injection H2.
    + set (df1 := keep (λ r, negb (payment_row df bank_name r)) df).
      assert (Hsame : keep (λ r, negb (payment_row df1 bank_name r)) df1 = df1).
      { unfold df1. rewrite keep_keep. apply keep_ext. intros r.
        rewrite payment_row_keep. apply andb_diag. }
      split.
      * intros df2 H2. pose proof (filter_ccp_result filter_payments df1 bank_name) as R2.
        rewrite H2 in R2. rewrite R2.
        destruct (is_empty df1 || negb filter_payments); [done|exact Hsame].
      * intros Ht. destruct (is_empty df1 || negb filter_payments) eqn:E1.
        -- unfold filter_credit_card_payments. rewrite E1. reflexivity.
        -- rewrite filter_ccp_text; [by rewrite Hsame|exact E1|].
           apply filter_reads_text_keep, Ht.
  - unfold filter_credit_card_payments. by rewrite orb_true_r.
Qed.

Lemma filter_idempotent_witness :
  let df1 := keep (λ r, negb (payment_row normalized_statement "chase" r)) normalized_statement in
  length (rows df1) = 1 /\
  filter_credit_card_payments true normalized_statement "chase" = Some df1 /\
  filter_reads_text normalized_statement "chase" = true /\
  filter_credit_card_payments true df1 "chase" = Some df1.
Proof.
  intros df1.
  assert (H2 : filter_reads_text normalized_statement "chase" = true) by reflexivity.
  assert (H1 : filter_credit_card_payments true normalized_statement "chase" = Some df1)
    by (apply filter_ccp_text; [reflexivity|exact H2]).
  split; [reflexivity|]. split; [exact H1|]. split; [exact H2|].
  exact (proj2 (proj1 (filter_idempotent true normalized_statement "chase") df1 H1) H2).
Defined.

(** C6 as stated fails: an object [description] column holding a
    payment phrase and a number passes the first pass, which leaves only
    the number; the second pass then raises. *)
Lemma filter_idempotent_counterexample :
  filter_credit_card_payments true mixed_descriptions "chase" <> None /\
  match filter_credit_card_payments true mixed_descriptions "chase" with
  | None => None
  | Some df1 => filter_credit_card_payments true df1 "chase"
  end = None.
Proof. split; vm_compute; [discriminate|reflexivity]. Qed.




End FilterFacts.

Module CategoryFacts.
Import PyStr Category.

Lemma partial_match_find (items : list (string * string)) (category_lower : string) :
  partial_match items category_lower =
  match first_substring_key items category_lower with
  | Some (_, target) => target
  | None => "other"
  end.
Proof.
  unfold first_substring_key.
  induction items as [|[k v] items IH]; simpl; [done|].
  by destruct (contains category_lower k).
Qed.

(** C8: [normalize_category] gives "other" for a missing value; else,
    on the lowered and stripped input, the target of an exact key, else
    that of the first key (in the reverse index's order) contained in
    the input, else "other".  Under the default mapping the spec's three
    examples hold. *)
Theorem normalize_category_spec (category_mapping : list (string * string)) :
  normalize_category category_mapping None = "other" /\
  (forall c t, dict_get category_mapping (strip (lower c)) = Some t ->
   normalize_category category_mapping (Some c) = t) /\
  (forall c k t, dict_get category_mapping (strip (lower c)) = None ->
   first_substring_key category_mapping (strip (lower c)) = Some (k, t) ->
   normalize_category category_mapping (Some c) = t) /\
  (forall c, dict_get category_mapping (strip (lower c)) = None ->
   first_substring_key category_mapping (strip (lower c)) = None ->
   normalize_category category_mapping (Some c) = "other") /\
  normalize_category (load_mapping default_mapping) None = "other" /\
  normalize_category (load_mapping default_mapping) (Some "Fast Food") = "dining" /\
  normalize_category (load_mapping default_mapping) (Some "Some Unknown Thing") = "other".
Proof.
  split; [reflexivity|]. split; [|split; [|split]].
  - intros c t H. simpl. by rewrite H.
  - intros c k t H1 H2. simpl. by rewrite H1, partial_match_find, H2.
  - intros c H1 H2. simpl. by rewrite H1, partial_match_find, H2.
  - vm_compute. auto.
Qed.

Lemma normalize_category_spec_witness :
  dict_get (load_mapping default_mapping) (strip (lower "Thai Restaurant Downtown")) = None /\
  first_substring_key (load_mapping default_mapping) (strip (lower "Thai Restaurant Downtown"))
    = Some ("restaurant", "dining") /\
  normalize_category (load_mapping default_mapping) (Some "Thai Restaurant Downtown") = "dining".
Proof.
  split; [vm_compute; reflexivity|]. split; [vm_compute; reflexivity|].
  apply (proj1 (proj2 (proj2 (normalize_category_spec (load_mapping default_mapping))))
           "Thai Restaurant Downtown" "restaurant").
  - vm_compute. reflexivity.
  - vm_compute. reflexivity.
Defined.

End CategoryFacts.

Module NotesExtra.
Import PyStr PyStrFacts Notes NotesFacts.

(** The value [set_note] stores for a note. *)
Lemma lookup_set_map (i note k : string) (m : gmap string string) :
  set_map i note m !! k =
  if bool_decide (k = i) then (if has_non_ws note then Some (strip note) else None)
  else m !! k.
Proof.
  unfold set_map. rewrite truthy_strip.
  case_bool_decide as Hk.
  - subst k. destruct (has_non_ws note); [apply lookup_insert_eq|apply lookup_delete_eq].
  - destruct (has_non_ws note); [by rewrite lookup_insert_ne|by rewrite lookup_delete_ne].
Qed.

Lemma set_note_effect (f : fault) (now i note : string) (d : notes_data) (fs : fsys) :
  let '(ok, d', _) := set_note f now i note d fs in
  ok = true /\
  get_note d' i = (if has_non_ws note then strip note else "") /\
  (forall k, k <> i -> get_note d' k = get_note d k).
Proof.
  pose proof (set_note_notes f now i note d fs) as H.
  destruct (set_note f now i note d fs) as [[ok d'] fs']. destruct H as [-> H].
  unfold get_note. rewrite (get_all_notes_some _ _ H).
  split; [done|]. split.
  - rewrite lookup_set_map, bool_decide_true by done. by destruct (has_non_ws note).
  - intros k Hk. rewrite lookup_set_map, bool_decide_false by done. done.
Qed.

(** [set_note] then [get_note]: the stripped note (not the note as
    given), or "" for a blank note; every other id keeps its note. *)
Theorem set_note_get_note (f : fault) (now i note : string) (d : notes_data) (fs : fsys) :
  let '(ok, d', _) := set_note f now i note d fs in
  ok = true /\
  get_note d' i = (if has_non_ws note then strip note else "") /\
  (forall k, k <> i -> get_note d' k = get_note d k).
Proof. exact (set_note_effect f now i note d fs). Qed.

Lemma save_nofault_file (now : string) (d : notes_data) (fs : fsys) :
  meta d <> None ->
  notes_file (save_notes_to_file NoFault now d fs).2 = FDoc (save_notes_to_file NoFault now d fs).1.
Proof. unfold save_notes_to_file. destruct (meta d); [reflexivity|congruence]. Qed.

Lemma save_meta (f : fault) (now : string) (d : notes_data) (fs : fsys) :
  meta d <> None -> meta (save_notes_to_file f now d fs).1 <> None.
Proof. unfold save_notes_to_file. destruct (meta d), f; simpl; congruence. Qed.

(** A successful [set_note] is durable: a new [NotesManager] opened
    on the resulting directory (whose [makedirs] succeeds, the path
    having a directory part) reads back exactly the saved document and
    leaves the files alone. *)
Theorem set_note_durable (now now' i note : string) (f1 f2 : fault) (d : notes_data) (fs : fsys) :
  meta d <> None ->
  let '(_, d', fs') := set_note NoFault now i note d fs in
  init true f1 f2 now' fs' = Some (d', fs') /\
  get_note d' i = (if has_non_ws note then strip note else "").
Proof.
  intros Hm.
  pose proof (set_note_effect NoFault now i note d fs) as Hg.
  unfold set_note in *.
  match goal with |- context [save_notes_to_file NoFault now ?d1 fs] =>
    pose proof (save_nofault_file now d1 fs Hm) as Hf;
    destruct (save_notes_to_file NoFault now d1 fs) as [d2 fs2] end.
  simpl in Hf, Hg |- *. destruct Hg as [_ [Hg _]].
  unfold init, ensure_notes_file_exists, load_notes. simpl. rewrite Hf. simpl. rewrite Hf.
  split; [done|exact Hg].
Qed.

Lemma set_note_durable_witness :
  meta (default_data "t0") <> None /\
  (let '(_, d', fs') := set_note NoFault "t1" "id1" " lunch " (default_data "t0") Fixtures.fs0 in
   init true NoFault NoFault "t2" fs' = Some (d', fs') /\
   get_note d' "id1" = (if has_non_ws " lunch " then strip " lunch " else "")).
Proof.
  split; [discriminate|]. apply set_note_durable. discriminate.
Defined.

(** A store whose document has no "metadata" key never writes: the
    [KeyError] in [_save_notes_to_file] is swallowed, [set_note] still
    returns [True] and the notes file is left as it was. *)
Theorem set_note_without_metadata (f : fault) (now i note : string) (d : notes_data) (fs : fsys) :
  meta d = None ->
  set_note f now i note d fs =
  (true, {| transaction_notes := Some (set_map i note (get_all_notes d)); meta := None |}, fs).
Proof.
  intros Hm. unfold set_note, save_notes_to_file, set_map, get_all_notes. simpl.
  rewrite Hm. by destruct (transaction_notes d).
Qed.

Lemma set_note_without_metadata_witness :
  meta {| transaction_notes := None; meta := None |} = None /\
  set_note NoFault "t" "id1" "x" {| transaction_notes := None; meta := None |} Fixtures.fs0 =
  (true, {| transaction_notes := Some (set_map "id1" "x"
              (get_all_notes {| transaction_notes := None; meta := None |})); meta := None |},
   Fixtures.fs0).
Proof. split; [reflexivity|]. apply set_note_without_metadata. reflexivity. Defined.

Lemma step_temp (now : string) (o : op) (s : notes_data * fsys) :
  temp_files s.2 <= temp_files (step now o s).2 <= temp_files s.2 + 2 /\
  (forallb (λ f, negb (leaks_temp f)) (op_faults o) = true ->
   temp_files (step now o s).2 = temp_files s.2).
Proof.
  destruct s as [[tn [m|]] [nf t]];
  destruct o as [[] [] []|[]|[] i n|[]]; try destruct nf; simpl;
  (split; [lia|]); intros H; first [lia|discriminate].
Qed.

(** Temporary files: each operation leaves at most two behind (one per
    save it makes), and a sequence of operations none of whose saves
    fails in its cleanup leaves none. *)
Theorem run_no_temp_leak (ops : list (string * op)) (s : notes_data * fsys) :
  temp_files s.2 <= temp_files (run ops s).2 <= temp_files s.2 + 2 * length ops /\
  (Forall (λ o, forallb (λ f, negb (leaks_temp f)) (op_faults o.2) = true) ops ->
   temp_files (run ops s).2 = temp_files s.2).
Proof.
  revert s. induction ops as [|[now o] ops IH]; intros s; cbn [run length]; [split; [lia|done]|].
  destruct (step_temp now o s) as [B1 B2]. destruct (IH (step now o s)) as [C1 C2].
  split; [lia|]. intros H. inversion H as [|x xs Hx Hxs]; subst.
  rewrite C2 by exact Hxs. apply B2, Hx.
Qed.

Lemma run_no_temp_leak_witness :
  Forall (λ o, forallb (λ f, negb (leaks_temp f)) (op_faults o.2) = true)
    [("t1", OpInit true FailWrite NoFault); ("t2", OpSet FailMove "a" "x");
     ("t3", OpClear FailTempCreate)] /\
  temp_files (run [("t1", OpInit true FailWrite NoFault); ("t2", OpSet FailMove "a" "x");
                   ("t3", OpClear FailTempCreate)] (default_data "t0", Fixtures.fs0)).2 =
  temp_files (default_data "t0", Fixtures.fs0).2.
Proof.
  assert (H : Forall (λ o, forallb (λ f, negb (leaks_temp f)) (op_faults o.2) = true)
                [("t1", OpInit true FailWrite NoFault); ("t2", OpSet FailMove "a" "x");
                 ("t3", OpClear FailTempCreate)]) by (repeat constructor).
  split; [exact H|]. exact (proj2 (run_no_temp_leak _ (default_data "t0", Fixtures.fs0)) H).
Defined.

(** [load_notes] on a missing or corrupt file keeps the notes held in
    memory (it does not reset them) and, when the save succeeds, writes
    them back so the file is readable again. *)
Theorem load_notes_recovers (f : fault) (now : string) (d : notes_data) (fs : fsys) :
  (notes_file fs = FMissing \/ notes_file fs = FCorrupt) ->
  get_all_notes (load_notes f now d fs).1 = get_all_notes d /\
  (f = NoFault -> meta d <> None ->
   notes_file (load_notes f now d fs).2 = FDoc (load_notes f now d fs).1).
Proof.
  intros Hf. unfold load_notes.
  destruct Hf as [Hf|Hf]; rewrite Hf;
    (split; [unfold get_all_notes; by rewrite save_notes
            |intros -> Hm; by apply save_nofault_file]).
Qed.

Lemma load_notes_recovers_witness :
  (notes_file Fixtures.fs0 = FMissing \/ notes_file Fixtures.fs0 = FCorrupt) /\
  get_all_notes (load_notes NoFault "t" (default_data "t0") Fixtures.fs0).1 =
    get_all_notes (default_data "t0") /\
  notes_file (load_notes NoFault "t" (default_data "t0") Fixtures.fs0).2 =
    FDoc (load_notes NoFault "t" (default_data "t0") Fixtures.fs0).1.
Proof.
  assert (H : notes_file Fixtures.fs0 = FMissing \/ notes_file Fixtures.fs0 = FCorrupt)
    by (left; reflexivity).
  split; [exact H|].
  destruct (load_notes_recovers NoFault "t" (default_data "t0") Fixtures.fs0 H) as [H1 H2].
  split; [exact H1|]. apply H2; [reflexivity|discriminate].
Defined.

(** Opening the store: when [os.makedirs] raises (a bare file name, or
    a directory that cannot be created) the constructor raises whatever
    the file holds; otherwise, over a readable file the in-memory data is
    that file's document and the file is not rewritten, and over a
    missing or corrupt file the store starts with no notes. *)
Theorem init_store (makedirs_ok : bool) (f1 f2 : fault) (now : string) (fs : fsys) :
  (makedirs_ok = false -> init makedirs_ok f1 f2 now fs = None) /\
  (makedirs_ok = true ->
   (forall d0, notes_file fs = FDoc d0 -> init makedirs_ok f1 f2 now fs = Some (d0, fs)) /\
   ((forall d0, notes_file fs <> FDoc d0) ->
    exists d fs', init makedirs_ok f1 f2 now fs = Some (d, fs') /\ get_all_notes d = ∅)).
Proof.
  split; [intros ->; reflexivity|]. intros ->.
  unfold init, ensure_notes_file_exists. cbn [negb]. split.
  - intros d0 H. rewrite H. simpl. unfold load_notes. by rewrite H.
  - intros H. destruct (notes_file fs) as [| |d0] eqn:E.
    + destruct (save_notes_to_file f1 now (default_data now) fs) as [d1 fs1] eqn:S.
      pose proof (save_notes f1 now (default_data now) fs) as Hn. rewrite S in Hn. simpl in Hn.
      simpl. match goal with |- context [load_notes ?a ?b ?c ?e] =>
        exists (load_notes a b c e).1, (load_notes a b c e).2;
        split; [by rewrite <- surjective_pairing|] end.
      unfold load_notes. destruct (notes_file fs1) as [| |d'] eqn:E1.
      * unfold get_all_notes. rewrite save_notes, Hn. reflexivity.
      * unfold get_all_notes. rewrite save_notes, Hn. reflexivity.
      * (* the first save wrote the default document *)
        unfold save_notes_to_file in S. simpl in S.
        destruct f1; inversion S; subst; simpl in E1; rewrite ?E in E1; inversion E1;
          subst; reflexivity.
    + simpl. match goal with |- context [load_notes ?a ?b ?c ?e] =>
        exists (load_notes a b c e).1, (load_notes a b c e).2;
        split; [by rewrite <- surjective_pairing|] end.
      unfold load_notes. rewrite E. unfold get_all_notes. by rewrite save_notes.
    + exfalso. by apply (H d0).
Qed.

Lemma init_store_witness :
  (forall d0, notes_file Fixtures.fs0 <> FDoc d0) /\
  exists d fs', init true FailCleanup NoFault "t" Fixtures.fs0 = Some (d, fs') /\
                get_all_notes d = ∅.
Proof.
  assert (H : forall d0, notes_file Fixtures.fs0 <> FDoc d0) by discriminate.
  split; [exact H|].
  exact (proj2 (proj2 (init_store true FailCleanup NoFault "t" Fixtures.fs0) eq_refl) H).
Defined.

End NotesExtra.

Module SearchExtra.
Import PyStr PyStrFacts Notes.

Lemma lower_char_idem (c : ascii) : lower_char (lower_char c) = lower_char c.
Proof. destruct c as [[] [] [] [] [] [] [] []]; reflexivity. Qed.

Lemma lower_upper_char (c : ascii) : lower_char (upper_char c) = lower_char c.
Proof. destruct c as [[] [] [] [] [] [] [] []]; reflexivity. Qed.

Lemma is_ws_lower_char (c : ascii) : is_ws (lower_char c) = is_ws c.
Proof. destruct c as [[] [] [] [] [] [] [] []]; reflexivity. Qed.

Lemma is_ws_upper_char (c : ascii) : is_ws (upper_char c) = is_ws c.
Proof. destruct c as [[] [] [] [] [] [] [] []]; reflexivity. Qed.

Lemma lower_idem (s : string) : lower (lower s) = lower s.
Proof. induction s as [|c s IH]; simpl; [done|]. by rewrite lower_char_idem, IH. Qed.

Lemma lower_upper (s : string) : lower (upper s) = lower s.
Proof. induction s as [|c s IH]; simpl; [done|]. by rewrite lower_upper_char, IH. Qed.

Lemma has_non_ws_lower (s : string) : has_non_ws (lower s) = has_non_ws s.
Proof. induction s as [|c s IH]; simpl; [done|]. by rewrite is_ws_lower_char, IH. Qed.

Lemma has_non_ws_upper (s : string) : has_non_ws (upper s) = has_non_ws s.
Proof. induction s as [|c s IH]; simpl; [done|]. by rewrite is_ws_upper_char, IH. Qed.

(** [search_notes] ignores the case of an ASCII search term: the term
    in lower or upper case finds the same notes.  (Outside ASCII Python's
    case mappings are not inverse to each other, e.g. ['ß'.upper()] is
    ['SS'], so the term is restricted to ASCII, where [lower] and [upper]
    are Python's [str.lower] and [str.upper].) *)
Theorem search_notes_case_insensitive (term : string) (d : notes_data) :
  is_ascii7 term = true ->
  search_notes (lower term) d = search_notes term d /\
  search_notes (upper term) d = search_notes term d.
Proof.
  intros _. unfold search_notes. rewrite !truthy_strip, has_non_ws_lower, has_non_ws_upper.
  by rewrite lower_idem, lower_upper.
Qed.

Lemma search_notes_case_insensitive_witness :
  is_ascii7 "Gas" = true /\
  search_notes (lower "Gas") Fixtures.chase_notes = search_notes "Gas" Fixtures.chase_notes /\
  search_notes (upper "Gas") Fixtures.chase_notes = search_notes "Gas" Fixtures.chase_notes.
Proof.
  assert (H : is_ascii7 "Gas" = true) by reflexivity.
  split; [exact H|]. exact (search_notes_case_insensitive "Gas" Fixtures.chase_notes H).
Defined.

End SearchExtra.

Module FrameFacts.
Import PyStr Bank.

Lemma existsb_fst_set (name c : string) (dt : dtype) (cols : list (string * dtype)) :
  existsb (λ cd, String.eqb cd.1 c)
    (map (λ cd, if String.eqb cd.1 name then (name, dt) else cd) cols) =
  existsb (λ cd, String.eqb cd.1 c) cols.
Proof.
  induction cols as [|[k t] cols IH]; simpl; [done|].
  destruct (String.eqb_spec k name) as [->|]; simpl; by rewrite IH.
Qed.

Lemma has_col_set_column (name : string) (dt : dtype) (f : row -> cell) (df : frame) (c : string) :
  has_col (set_column name dt f df) c = has_col df c || String.eqb name c.
Proof.
  unfold has_col at 1, set_column. simpl. destruct (has_col df name) eqn:E.
  - rewrite existsb_fst_set. fold (has_col df c).
    destruct (String.eqb_spec name c) as [<-|]; [by rewrite E, orb_true_r|by rewrite orb_false_r].
  - rewrite existsb_app. simpl. by rewrite orb_false_r.
Qed.

Lemma col_dtype_set_column_ne (name : string) (dt : dtype) (f : row -> cell) (df : frame) (c : string) :
  name <> c -> col_dtype (set_column name dt f df) c = col_dtype df c.
Proof.
  intros Hne. unfold col_dtype, set_column. simpl. destruct (has_col df name).
  - generalize (columns df). induction l as [|[k t] cols IH]; simpl; [done|].
    destruct (String.eqb_spec k name) as [->|]; simpl.
    + apply String.eqb_neq in Hne. by rewrite Hne.
    + by destruct (String.eqb k c).
  - generalize (columns df). induction l as [|[k t] cols IH]; simpl.
    + apply String.eqb_neq in Hne. by rewrite Hne.
    + by destruct (String.eqb k c).
Qed.

Lemma is_empty_set_column (name : string) (dt : dtype) (f : row -> cell) (df : frame) :
  is_empty df = false -> is_empty (set_column name dt f df) = false.
Proof.
  destruct df as [cols rs]. unfold is_empty, set_column. simpl.
  destruct rs; [done|]. destruct cols as [|cd cols]; [done|]. intros _. simpl.
  destruct (has_col _ name); simpl; [done|]. by destruct cols.
Qed.

Lemma cell_at_insert_ne (r : row) (c c' : string) (x : cell) :
  c <> c' -> cell_at (<[c := x]> r) c' = cell_at r c'.
Proof. intros H. unfold cell_at. by rewrite lookup_insert_ne. Qed.

Lemma length_rows_set_column (name : string) (dt : dtype) (f : row -> cell) (df : frame) :
  length (rows (set_column name dt f df)) = length (rows df).
Proof. apply length_map. Qed.

End FrameFacts.

Module NotesFrameFacts.
Import PyStr PyStrFacts Notes NotesFacts Bank FrameFacts NotesFrame NotesFrameViews NotesExtra.

Lemma update_rows_spec (py : Q -> string) (flt : nat -> fault) (now : string) (n : nat)
    (rs : list row) (results : gmap string bool) (d : notes_data) (fs : fsys)
    (res : gmap string bool) (d' : notes_data) (fs' : fsys) :
  update_rows py flt now n rs results d fs = Some (res, d', fs') ->
  (forall k b, res !! k = Some b -> b = true \/ results !! k = Some b) /\
  (forall k, is_Some (res !! k) <->
             is_Some (results !! k) \/ Exists (λ r, cell_at r "transaction_id" = CStr k) rs) /\
  (forall k, get_note d' k =
             match last_note py rs k with Some m => stored_note m | None => get_note d k end).
Proof.
  revert n results d fs. induction rs as [|r rs IH]; intros n results d fs H; simpl in H.
  - injection H as <- <- <-. split; [eauto|]. split; [|done].
    intros k. rewrite Exists_nil. tauto.
  - destruct (cell_at r "transaction_id") as [t| |] eqn:Et; try discriminate.
    pose proof (set_note_effect (flt n) now t (py_str_cell py (cell_at r "notes")) d fs) as Hs.
    destruct (set_note (flt n) now t (py_str_cell py (cell_at r "notes")) d fs) as [[ok d1] fs1].
    destruct Hs as [-> [Hi Ho]].
    destruct (IH _ _ _ _ H) as [H1 [H2 H3]]. split; [|split].
    + intros k b Hk. destruct (H1 k b Hk) as [->|Hk']; [by left|].
      destruct (decide (k = t)) as [->|Hne].
      * rewrite lookup_insert_eq in Hk'. injection Hk' as <-. by left.
      * rewrite lookup_insert_ne in Hk' by congruence. by right.
    + intros k. rewrite H2, Exists_cons, Et. destruct (decide (k = t)) as [->|Hne].
      * rewrite lookup_insert_eq. split; [intros _; right; by left|intros _; left; eauto].
      * rewrite lookup_insert_ne by congruence.
        split; (intros [A|A]; [by left|]); [by right; right|].
        destruct A as [A|A]; [congruence|by right].
    + intros k. rewrite H3. simpl. destruct (last_note py rs k); [done|]. rewrite Et.
      destruct (String.eqb_spec t k) as [<-|Hne]; [exact Hi|apply Ho; congruence].
Qed.

(** [update_notes_from_dataframe]: every result is [True], the results
    hold exactly the ids of the frame, and the note kept for an id is the
    one of its last row, stripped; a NaN note is saved as "nan". *)
Theorem update_notes_last_row_wins (py : Q -> string) (flt : nat -> fault) (now : string)
    (df : frame) (d : notes_data) (fs : fsys)
    (res : gmap string bool) (d' : notes_data) (fs' : fsys) :
  has_col df "transaction_id" = true -> has_col df "notes" = true ->
  update_notes_from_dataframe py flt now df d fs = Some (res, d', fs') ->
  (forall k b, res !! k = Some b -> b = true) /\
  (forall k, is_Some (res !! k) <-> Exists (λ r, cell_at r "transaction_id" = CStr k) (rows df)) /\
  (forall k, get_note d' k =
             match last_note py (rows df) k with Some m => stored_note m | None => get_note d k end).
Proof.
  intros Ht Hn H. unfold update_notes_from_dataframe in H. rewrite Ht, Hn in H.
  cbn [negb] in H. rewrite !orb_false_r in H.
  assert (Hu : update_rows py flt now 0 (rows df) ∅ d fs = Some (res, d', fs')).
  { destruct (is_empty df) eqn:E; [|exact H].
    unfold is_empty in E. unfold has_col in Ht.
    destruct (rows df) as [|r rs]; [exact H|].
    destruct (columns df); discriminate. }
  destruct (update_rows_spec py flt now 0 (rows df) ∅ d fs res d' fs' Hu) as [H1 [H2 H3]].
  split; [|split; [|exact H3]].
  - intros k b Hk. destruct (H1 k b Hk) as [->|Hk']; [done|by rewrite lookup_empty in Hk'].
  - intros k. rewrite H2, lookup_empty. split; [intros [[? ?]|A]; [discriminate|exact A]|by right].
Qed.

Lemma update_notes_last_row_wins_witness :
  exists res d' fs',
    has_col Fixtures.notes_frame "transaction_id" = true /\
    has_col Fixtures.notes_frame "notes" = true /\
    update_notes_from_dataframe (λ _, "0.0") (λ _, NoFault) "t1" Fixtures.notes_frame
      (default_data "t0") Fixtures.fs0 = Some (res, d', fs') /\
    get_note d' "a1" = "nan".
Proof.
  destruct (update_notes_from_dataframe (λ _, "0.0") (λ _, NoFault) "t1" Fixtures.notes_frame
              (default_data "t0") Fixtures.fs0) as [[[res d'] fs']|] eqn:E;
    [|vm_compute in E; discriminate].
  exists res, d', fs'. split; [reflexivity|]. split; [reflexivity|]. split; [reflexivity|].
  destruct (update_notes_last_row_wins (λ _, "0.0") (λ _, NoFault) "t1" Fixtures.notes_frame
              (default_data "t0") Fixtures.fs0 res d' fs' eq_refl eq_refl E) as [_ [_ H3]].
  rewrite H3. reflexivity.
Defined.

Lemma map_stripped_lookup (m : gmap string string) (k v : string) :
  map_stripped m = true -> m !! k = Some v -> has_non_ws v = true /\ strip v = v.
Proof.
  unfold map_stripped. rewrite forallb_forall. intros H Hk.
  apply elem_of_map_to_list, list_elem_of_In, H in Hk. simpl in Hk.
  apply andb_true_iff in Hk as [A B]. split; [exact A|]. by apply String.eqb_eq.
Qed.

Lemma set_map_stripped_id (m : gmap string string) (s : string) :
  map_stripped m = true -> set_map s (default "" (m !! s)) m = m.
Proof.
  intros Hm. unfold set_map. rewrite truthy_strip.
  destruct (m !! s) as [v|] eqn:E; simpl.
  - destruct (map_stripped_lookup m s v Hm E) as [-> ->]. by apply insert_id.
  - by apply delete_id.
Qed.

Lemma update_rows_roundtrip (py : Q -> string) (flt : nat -> fault) (now : string) (n : nat)
    (rs : list row) (results : gmap string bool) (d : notes_data) (fs : fsys) :
  map_stripped (get_all_notes d) = true ->
  Forall (λ r, exists s, cell_at r "transaction_id" = CStr s /\
                         cell_at r "notes" = CStr (get_note d s)) rs ->
  exists res d' fs', update_rows py flt now n rs results d fs = Some (res, d', fs') /\
                     get_all_notes d' = get_all_notes d.
Proof.
  revert n results d fs. induction rs as [|r rs IH]; intros n results d fs Hm Hrs.
  - by exists results, d, fs.
  - apply Forall_cons in Hrs as [[s [Hs Hn]] Hrs]. simpl. rewrite Hs, Hn. simpl.
    pose proof (set_note_notes (flt n) now s (get_note d s) d fs) as Hset.
    destruct (set_note (flt n) now s (get_note d s) d fs) as [[ok d1] fs1].
    destruct Hset as [_ Hset]. unfold get_note in Hset.
    rewrite set_map_stripped_id in Hset by exact Hm.
    apply get_all_notes_some in Hset.
    assert (Hrs' : Forall (λ r, exists s, cell_at r "transaction_id" = CStr s /\
                              cell_at r "notes" = CStr (get_note d1 s)) rs).
    { eapply Forall_impl; [exact Hrs|]. intros r' [s' [A B]]. exists s'. split; [exact A|].
      unfold get_note. by rewrite Hset. }
    destruct (IH (S n) (<[s := ok]> results) d1 fs1) as [res [d' [fs' [E Hd']]]];
      [by rewrite Hset|exact Hrs'|].
    exists res, d', fs'. split; [exact E|]. by rewrite Hd', Hset.
Qed.

(** Round trip of the app's notes column: writing back, with
    [update_notes_from_dataframe], the notes column that
    [add_notes_to_dataframe] produced changes no stored note, when the
    stored notes are as [set_note] writes them (non-blank, stripped) and
    the frame's ids, if it has some, are strings. *)
Theorem notes_column_roundtrip (py : Q -> string) (sha : list Byte.byte -> string)
    (flt : nat -> fault) (now : string) (df : frame) (d : notes_data) (fs : fsys) :
  map_stripped (get_all_notes d) = true -> ids_are_strings df = true ->
  exists res d' fs',
    update_notes_from_dataframe py flt now (add_notes_to_dataframe py sha d df) d fs =
      Some (res, d', fs') /\
    get_all_notes d' = get_all_notes d.
Proof.
  intros Hm Hids. unfold add_notes_to_dataframe.
  destruct (is_empty df) eqn:E.
  { unfold update_notes_from_dataframe. rewrite E. simpl. by exists ∅, d, fs. }
  set (df1 := if has_col df "transaction_id" then df else add_transaction_ids py sha df).
  assert (E1 : is_empty df1 = false).
  { unfold df1, add_transaction_ids. rewrite E.
    destruct (has_col df "transaction_id"); [exact E|by apply is_empty_set_column]. }
  assert (Hid1 : Forall (λ r, exists s, cell_at r "transaction_id" = CStr s) (rows df1)).
  { unfold df1. destruct (has_col df "transaction_id") eqn:Ht.
    - unfold ids_are_strings in Hids. rewrite Ht in Hids. simpl in Hids.
      apply Forall_forall. intros r Hr. rewrite forallb_forall in Hids.
      apply list_elem_of_In, Hids in Hr.
      destruct (cell_at r "transaction_id"); try discriminate. eauto.
    - unfold add_transaction_ids. rewrite E. rewrite AmountFacts.rows_set_column.
      apply List.Forall_map. apply Forall_forall. intros r0 _.
      rewrite AmountFacts.cell_at_insert. eauto. }
  unfold update_notes_from_dataframe.
  rewrite is_empty_set_column by exact E1.
  assert (Ht1 : has_col df1 "transaction_id" = true).
  { unfold df1. destruct (has_col df "transaction_id") eqn:Ht; [exact Ht|].
    unfold add_transaction_ids. rewrite E, has_col_set_column. apply orb_true_r. }
  rewrite !has_col_set_column, Ht1, String.eqb_refl, orb_true_l, orb_true_r.
  cbn [negb orb].
  apply update_rows_roundtrip; [exact Hm|].
  rewrite AmountFacts.rows_set_column. apply List.Forall_map.
  eapply Forall_impl; [exact Hid1|]. intros r [s Hs]. exists s.
  rewrite cell_at_insert_ne by discriminate. rewrite AmountFacts.cell_at_insert, Hs.
  split; reflexivity.
Qed.

Lemma notes_column_roundtrip_witness :
  map_stripped (get_all_notes Fixtures.chase_notes) = true /\
  ids_are_strings Fixtures.plain_frame = true /\
  exists res d' fs',
    update_notes_from_dataframe (λ _, "0.0") (λ _, NoFault) "t1"
      (add_notes_to_dataframe (λ _, "0.0") string_of_list_byte Fixtures.chase_notes Fixtures.plain_frame)
      Fixtures.chase_notes Fixtures.fs0 = Some (res, d', fs') /\
    get_all_notes d' = get_all_notes Fixtures.chase_notes.
Proof.
  split; [reflexivity|]. split; [reflexivity|].
  apply notes_column_roundtrip; reflexivity.
Defined.

End NotesFrameFacts.

Module TxnIdExtra.
Import PyStr TxnId.

Lemma key_field_insert_ne (V : Type) (py_str : V -> string) (row : gmap string V)
    (c k : string) (v : V) :
  c <> k -> key_field V py_str (<[c := v]> row) k = key_field V py_str row k.
Proof. intros H. unfold key_field. by rewrite lookup_insert_ne. Qed.

Lemma key_field_insert_eq (V : Type) (py_str : V -> string) (row : gmap string V)
    (c : string) (v : V) :
  key_field V py_str (<[c := v]> row) c = py_str v.
Proof. unfold key_field. by rewrite lookup_insert_eq. Qed.

(** The id depends on the five key fields only: adding or replacing any
    other column of a row (such as [notes] or [transaction_id]) keeps it. *)
Theorem transaction_id_ignores_other_columns (V : Type) (py_str : V -> string)
    (sha256_hexdigest : list Byte.byte -> string) (row : gmap string V) (c : string) (v : V) :
  ~ In c key_names ->
  generate_transaction_id V py_str sha256_hexdigest (<[c := v]> row) =
  generate_transaction_id V py_str sha256_hexdigest row.
Proof.
  intros Hc. unfold generate_transaction_id. do 4 f_equal.
  apply map_ext_in. intros k Hk. apply key_field_insert_ne. intros ->. exact (Hc Hk).
Qed.

Lemma transaction_id_ignores_other_columns_witness :
  ~ In "notes" key_names /\
  generate_transaction_id string (λ s, s) string_of_list_byte
    (<[ "notes" := "rent" ]> {[ "date" := "2025-07-13" ]}) =
  generate_transaction_id string (λ s, s) string_of_list_byte {[ "date" := "2025-07-13" ]}.
Proof.
  assert (H : ~ In "notes" key_names) by (simpl; intuition discriminate).
  split; [exact H|]. by apply transaction_id_ignores_other_columns.
Defined.

Lemma append_assoc (a b c : string) : ((a ++ b) ++ c)%string = (a ++ (b ++ c))%string.
Proof.
  induction a as [|x a IH]; [reflexivity|].
  change (String x ((a ++ b) ++ c) = String x (a ++ (b ++ c)))%string. by rewrite IH.
Qed.

(** The fields are joined with '|' without escaping: two rows whose
    description and bank differ, but read the same once joined, get the
    same id, whatever the hash function. *)
Theorem transaction_id_separator_collision (V : Type) (py_str : V -> string)
    (sha256_hexdigest : list Byte.byte -> string) (row : gmap string V)
    (desc1 bank1 desc2 bank2 : V) (a b c : string) :
  py_str desc1 = (a ++ "|" ++ b)%string -> py_str bank1 = c ->
  py_str desc2 = a -> py_str bank2 = (b ++ "|" ++ c)%string ->
  generate_transaction_id V py_str sha256_hexdigest
    (<[ "description" := desc1 ]> (<[ "bank" := bank1 ]> row)) =
  generate_transaction_id V py_str sha256_hexdigest
    (<[ "description" := desc2 ]> (<[ "bank" := bank2 ]> row)).
Proof.
  intros H1 H2 H3 H4. unfold generate_transaction_id, key_names. cbn [map].
  rewrite !key_field_insert_eq.
  rewrite !(key_field_insert_ne _ _ _ "description") by discriminate.
  rewrite !key_field_insert_eq.
  rewrite !(key_field_insert_ne _ _ _ "bank") by discriminate.
  rewrite H1, H2, H3, H4. cbn [join].
  rewrite !append_assoc. reflexivity.
Qed.

Lemma transaction_id_separator_collision_witness :
  generate_transaction_id string (λ s, s) string_of_list_byte
    (<[ "description" := "A|B" ]> (<[ "bank" := "C" ]> ∅)) =
  generate_transaction_id string (λ s, s) string_of_list_byte
    (<[ "description" := "A" ]> (<[ "bank" := "B|C" ]> ∅)).
Proof.
  apply (transaction_id_separator_collision string (λ s, s) string_of_list_byte ∅
           "A|B" "C" "A" "B|C" "A" "B" "C"); reflexivity.
Defined.

End TxnIdExtra.

Module ClearExtra.
Import Notes NotesFacts NotesExtra.

(** [clear_all_notes] always returns [True] and empties the notes; the
    empty store reaches the file when the save succeeds, a failed save
    leaves the notes file as it was, and the temporary file is removed
    unless the save's cleanup fails. *)
Theorem clear_all_notes_spec (f : fault) (now : string) (d : notes_data) (fs : fsys) :
  let '(ok, d', fs') := clear_all_notes f now d fs in
  ok = true /\ get_all_notes d' = ∅ /\
  (f = NoFault -> meta d <> None -> notes_file fs' = FDoc d') /\
  (f <> NoFault -> notes_file fs' = notes_file fs) /\
  (f <> FailCleanup -> temp_files fs' = temp_files fs) /\
  (f = FailCleanup -> meta d <> None -> temp_files fs' = S (temp_files fs)).
Proof.
  unfold clear_all_notes.
  set (d1 := {| transaction_notes := Some ∅; meta := meta d |}).
  pose proof (save_notes f now d1 fs) as Hn.
  pose proof (save_failed_file f now d1 fs) as Hf.
  pose proof (save_temp f now d1 fs) as Ht.
  assert (Hs : f = NoFault -> meta d <> None ->
               notes_file (save_notes_to_file f now d1 fs).2 =
               FDoc (save_notes_to_file f now d1 fs).1).
  { intros -> Hm. by apply save_nofault_file. }
  destruct (save_notes_to_file f now d1 fs) as [d2 fs2]. simpl in *.
  split; [done|]. split; [unfold get_all_notes; by rewrite Hn|].
  split; [exact Hs|]. split; [exact Hf|]. split.
  - intros Hc. rewrite Ht. destruct f; simpl; try lia; congruence.
  - intros -> Hm. rewrite Ht. simpl. destruct (meta d); [lia|congruence].
Qed.

End ClearExtra.

Module CategoryExtra.
Import PyStr Category CategoryFacts CategoryColumn.

Lemma dict_get_set (d : list (string * string)) (k v k' : string) :
  dict_get (dict_set d k v) k' = if String.eqb k' k then Some v else dict_get d k'.
Proof.
  induction d as [|[k0 v0] d IH]; simpl; [done|].
  destruct (String.eqb_spec k k0) as [->|Hne]; simpl.
  - by destruct (String.eqb k' k0).
  - rewrite IH. destruct (String.eqb_spec k' k0) as [->|]; [|done].
    destruct (String.eqb_spec k0 k); congruence.
Qed.

Lemma keys_dict_set (d : list (string * string)) (k v : string) :
  map fst (dict_set d k v) = if existsb (λ kv, String.eqb k kv.1) d then map fst d
                              else map fst d ++ [k].
Proof.
  induction d as [|[k0 v0] d IH]; simpl; [done|].
  destruct (String.eqb_spec k k0) as [->|]; simpl; [done|].
  rewrite IH. by destruct (existsb _ d).
Qed.

Lemma existsb_key_in (d : list (string * string)) (k : string) :
  existsb (λ kv, String.eqb k kv.1) d = false -> ~ In k (map fst d).
Proof.
  induction d as [|[k0 v0] d IH]; simpl; [tauto|].
  intros H. apply orb_false_iff in H as [H1 H2]. apply String.eqb_neq in H1.
  intros [->|Hin]; [congruence|exact (IH H2 Hin)].
Qed.

Lemma nodup_dict_set (d : list (string * string)) (k v : string) :
  List.NoDup (map fst d) -> List.NoDup (map fst (dict_set d k v)).
Proof.
  intros H. rewrite keys_dict_set. destruct (existsb _ d) eqn:E; [exact H|].
  apply List.NoDup_app; [exact H|constructor; [tauto|constructor]|].
  intros x Hx [<-|[]]. exact (existsb_key_in d k E Hx).
Qed.

Lemma in_dict_set (d : list (string * string)) (k v : string) (kv : string * string) :
  In kv (dict_set d k v) -> kv = (k, v) \/ In kv d.
Proof.
  induction d as [|[k0 v0] d IH]; simpl.
  - intros [<-|[]]. by left.
  - destruct (String.eqb k k0); simpl.
    + intros [<-|H]; [by left|by right; right].
    + intros [<-|H]; [by right; left|]. destruct (IH H) as [A|A]; [by left|by right; right].
Qed.

Lemma load_mapping_fold (target_to_sources : list (string * list string)) :
  load_mapping target_to_sources =
  fold_left (λ rm p, dict_set rm p.1 p.2) (mapping_pairs target_to_sources) [].
Proof.
  unfold load_mapping, mapping_pairs. generalize (@nil (string * string)).
  induction target_to_sources as [|[t srcs] t2s IH]; intros acc; simpl; [done|].
  rewrite fold_left_app, IH. f_equal.
  generalize acc. induction srcs as [|src srcs IHs]; intros acc'; simpl; [done|]. apply IHs.
Qed.

Lemma dict_get_fold (pairs : list (string * string)) (d : list (string * string)) (k : string) :
  dict_get (fold_left (λ rm p, dict_set rm p.1 p.2) pairs d) k =
  match assoc_last pairs k with Some v => Some v | None => dict_get d k end.
Proof.
  unfold assoc_last. revert d. induction pairs as [|[pk pv] pairs IH]; intros d; simpl; [done|].
  rewrite IH, dict_get_set.
  (* the last pair of [rev pairs ++ [(pk, pv)]] *)
  assert (Happ : forall l : list (string * string),
             dict_get (l ++ [(pk, pv)]) k =
             match dict_get l k with Some v => Some v
                                | None => if String.eqb k pk then Some pv else None end).
  { induction l as [|[a b] l IHl]; simpl; [done|]. destruct (String.eqb k a); [done|exact IHl]. }
  rewrite Happ. destruct (dict_get (rev pairs) k); [done|]. by destruct (String.eqb k pk).
Qed.

Lemma nodup_fold (pairs : list (string * string)) (d : list (string * string)) :
  List.NoDup (map fst d) ->
  List.NoDup (map fst (fold_left (λ rm p, dict_set rm p.1 p.2) pairs d)).
Proof.
  revert d. induction pairs as [|p pairs IH]; intros d H; simpl; [exact H|].
  apply IH, nodup_dict_set, H.
Qed.

Lemma in_fold (pairs : list (string * string)) (d : list (string * string)) (kv : string * string) :
  In kv (fold_left (λ rm p, dict_set rm p.1 p.2) pairs d) -> In kv d \/ In kv pairs.
Proof.
  revert d. induction pairs as [|[pk pv] pairs IH]; intros d H; simpl in *; [by left|].
  destruct (IH _ H) as [A|A]; [|by right; right].
  destruct (in_dict_set _ _ _ _ A) as [B|B]; [by right; left|by left].
Qed.

(** [load_mapping]: the reverse index has each lower-cased source once,
    mapped to the lower-cased target of the LAST listing of that source
    (in the default mapping "deposit" goes to "transfer", not "income"). *)
Theorem load_mapping_last_wins (target_to_sources : list (string * list string)) :
  List.NoDup (map fst (load_mapping target_to_sources)) /\
  forall k, dict_get (load_mapping target_to_sources) k =
            assoc_last (mapping_pairs target_to_sources) k.
Proof.
  rewrite load_mapping_fold. split.
  - apply nodup_fold. constructor.
  - intros k. rewrite dict_get_fold. simpl. by destruct (assoc_last _ k).
Qed.

Lemma partial_match_in (items : list (string * string)) (category_lower : string) :
  partial_match items category_lower = "other" \/
  exists k, In (k, partial_match items category_lower) items.
Proof.
  induction items as [|[k v] items IH]; simpl; [by left|].
  destruct (contains category_lower k); [right; exists k; by left|].
  destruct IH as [A|[k' A]]; [by left|right; exists k'; by right].
Qed.

Lemma dict_get_in (d : list (string * string)) (k v : string) :
  dict_get d k = Some v -> In (k, v) d.
Proof.
  induction d as [|[k0 v0] d IH]; simpl; [discriminate|].
  destruct (String.eqb_spec k k0) as [->|]; [intros [= <-]; by left|intros H; right; exact (IH H)].
Qed.

Lemma in_mapping_pairs (target_to_sources : list (string * list string)) (kv : string * string) :
  In kv (mapping_pairs target_to_sources) ->
  exists target sources source,
    In (target, sources) target_to_sources /\ In source sources /\ kv = (lower source, lower target).
Proof.
  unfold mapping_pairs. intros H. apply in_concat in H as [l [Hl Hkv]].
  apply in_map_iff in Hl as [[t srcs] [<- Ht]]. apply in_map_iff in Hkv as [src [<- Hs]].
  exists t, srcs, src. done.
Qed.

(** [normalize_category] with a mapping from [load_mapping] answers
    "other" or the lower-cased name of a target listed with at least one
    source in the mapping file. *)
Theorem normalize_category_range (target_to_sources : list (string * list string))
    (category : option string) :
  normalize_category (load_mapping target_to_sources) category = "other" \/
  exists target sources source,
    In (target, sources) target_to_sources /\ In source sources /\
    normalize_category (load_mapping target_to_sources) category = lower target.
Proof.
  assert (Hin : forall kv, In kv (load_mapping target_to_sources) ->
            exists target sources source,
              In (target, sources) target_to_sources /\ In source sources /\
              kv = (lower source, lower target)).
  { intros kv H. rewrite load_mapping_fold in H. destruct (in_fold _ _ _ H) as [[]|A].
    by apply in_mapping_pairs. }
  unfold normalize_category. destruct category as [c|]; [|by left].
  destruct (dict_get (load_mapping target_to_sources) (strip (lower c))) as [t|] eqn:E.
  - apply dict_get_in, Hin in E as [target [sources [source [A [B C]]]]].
    right. exists target, sources, source. split; [exact A|]. split; [exact B|].
    by injection C as _ ->.
  - destruct (partial_match_in (load_mapping target_to_sources) (strip (lower c))) as [A|[k A]];
      [by left|].
    apply Hin in A as [target [sources [source [A [B C]]]]].
    right. exists target, sources, source. split; [exact A|]. split; [exact B|].
    by injection C as _ ->.
Qed.

Lemma unique_from_spec (seen xs : list string) (x : string) :
  In x (unique_from seen xs) <-> In x xs /\ ~ In x seen.
Proof.
  revert seen. induction xs as [|y xs IH]; intros seen; simpl; [tauto|].
  destruct (existsb (String.eqb y) seen) eqn:E.
  - rewrite IH. apply existsb_exists in E as [z [Hz Hyz]]. apply String.eqb_eq in Hyz as ->.
    split; [tauto|]. intros [[->|A] B]; [contradiction|tauto].
  - simpl. rewrite IH. simpl.
    assert (Hy : ~ In y seen).
    { intros Hin. assert (existsb (String.eqb y) seen = true) as C
        by (apply existsb_exists; exists y; split; [exact Hin|apply String.eqb_refl]).
      congruence. }
    split.
    + intros [<-|[A B]]; [tauto|]. split; [by right|tauto].
    + intros [[<-|A] B]; [by left|].
      destruct (String.eqb_spec y x) as [->|Hne]; [by left|right; split; [exact A|]].
      intros [C|C]; [congruence|exact (B C)].
Qed.

Lemma unique_from_nodup (seen xs : list string) : List.NoDup (unique_from seen xs).
Proof.
  revert seen. induction xs as [|y xs IH]; intros seen; simpl; [constructor|].
  destruct (existsb (String.eqb y) seen); [apply IH|].
  constructor; [|apply IH]. rewrite unique_from_spec. simpl. tauto.
Qed.

Lemma in_omap_id (cells : list (option string)) (x : string) :
  In x (omap (λ c, c) cells) <-> In (Some x) cells.
Proof.
  induction cells as [|[c|] cells IH]; simpl; [tauto| |].
  - rewrite IH. split; (intros [A|A]; [left; congruence|by right]).
  - rewrite IH. split; [by right|intros [A|A]; [discriminate|exact A]].
Qed.

(** [get_unmapped_categories]: without the column it is empty;
    otherwise it lists, once each, exactly the non-missing values of the
    column that [normalize_category] sends to "other". *)
Theorem get_unmapped_categories_spec (category_mapping : list (string * string))
    (column : option (list (option string))) :
  List.NoDup (get_unmapped_categories category_mapping column) /\
  forall x, In x (get_unmapped_categories category_mapping column) <->
            exists cells, column = Some cells /\ In (Some x) cells /\
                          normalize_category category_mapping (Some x) = "other".
Proof.
  destruct column as [cells|]; simpl.
  - split.
    + apply List.NoDup_filter, unique_from_nodup.
    + intros x. rewrite List.filter_In, unique_from_spec, in_omap_id, String.eqb_eq. simpl.
      split; [intros [[A _] B]; by exists cells|intros [c [[= <-] [A B]]]; tauto].
  - split; [constructor|]. intros x. split; [tauto|intros [c [? _]]; discriminate].
Qed.

End CategoryExtra.

Module BankExtra.
Import PyStr Bank FrameFacts FilterFacts Schema.

(** [filter_credit_card_payments] only selects rows: whatever it
    returns is the input frame with the same columns and a subsequence of
    its rows, never altered. *)
Theorem filter_selects_rows (filter_payments : bool) (df : frame) (bank_name : string) (df' : frame) :
  filter_credit_card_payments filter_payments df bank_name = Some df' ->
  exists p, df' = keep p df.
Proof.
  intros H. pose proof (filter_ccp_result filter_payments df bank_name) as R.
  rewrite H in R. subst df'. destruct (is_empty df || negb filter_payments).
  - exists (λ _, true). by rewrite keep_true.
  - eauto.
Qed.

Lemma filter_selects_rows_witness :
  filter_credit_card_payments true Fixtures.chase_data "chase" =
    Some (keep (not_type_payment "Type") Fixtures.chase_data) /\
  exists p, keep (not_type_payment "Type") Fixtures.chase_data = keep p Fixtures.chase_data.
Proof.
  assert (H : filter_credit_card_payments true Fixtures.chase_data "chase" =
              Some (keep (not_type_payment "Type") Fixtures.chase_data)) by reflexivity.
  split; [exact H|]. exact (filter_selects_rows true Fixtures.chase_data "chase" _ H).
Defined.

(** Rows agree on every key except [name]. *)
Definition agree_except (name : string) (r r' : row) : Prop :=
  forall k, k <> name -> r' !! k = r !! k.

Lemma agree_set_column (name : string) (dt : dtype) (f : row -> cell) (df : frame) :
  Forall2 (agree_except name) (rows df) (rows (set_column name dt f df)).
Proof.
  rewrite AmountFacts.rows_set_column. induction (rows df) as [|r rs IH]; simpl; constructor; [|exact IH].
  intros k Hk. by rewrite lookup_insert_ne.
Qed.

Lemma agree_refl (name : string) (rs : list row) : Forall2 (agree_except name) rs rs.
Proof. induction rs; constructor; [intros k _; done|done]. Qed.

Lemma agree_trans (name : string) (l1 l2 l3 : list row) :
  Forall2 (agree_except name) l1 l2 -> Forall2 (agree_except name) l2 l3 ->
  Forall2 (agree_except name) l1 l3.
Proof.
  intros H12. revert l3. induction H12 as [|r1 r2 l1 l2 A _ IH]; intros l3 H23; [done|].
  inversion H23 as [|r2' r3 l2' l3' B C]; subst. constructor; [|by apply IH].
  intros k Hk. by rewrite B, A.
Qed.

(** The relation of a frame to one derived from it: same number of
    rows, no column lost. *)
Definition grows (df df' : frame) : Prop :=
  length (rows df') = length (rows df) /\
  forall c, has_col df c = true -> has_col df' c = true.

Lemma grows_refl (df : frame) : grows df df.
Proof. split; [done|auto]. Qed.

Lemma grows_trans (a b c : frame) : grows a b -> grows b c -> grows a c.
Proof. intros [A1 A2] [B1 B2]. split; [lia|auto]. Qed.

Lemma grows_set_column (name : string) (dt : dtype) (f : row -> cell) (df : frame) :
  grows df (set_column name dt f df).
Proof.
  split; [apply length_rows_set_column|]. intros c H. by rewrite has_col_set_column, H.
Qed.

(** [normalize_amount_column] writes the [amount] column only: no
    column is lost, the rows keep their number and order, and every other
    value of every row is left as it was. *)
Theorem normalize_amount_only_amount (parse_numeric : string -> option Q)
    (df : frame) (cfg : amount_config) :
  grows df (normalize_amount_column parse_numeric df cfg) /\
  Forall2 (agree_except "amount") (rows df) (rows (normalize_amount_column parse_numeric df cfg)).
Proof.
  destruct cfg as [col sc|debit credit|t]; simpl.
  - destruct (has_col df col); [|split; [apply grows_refl|apply agree_refl]].
    set (df1 := set_column "amount" DFloat (λ r, of_num (to_numeric parse_numeric (cell_at r col))) df).
    assert (G1 : grows df df1) by apply grows_set_column.
    assert (A1 : Forall2 (agree_except "amount") (rows df) (rows df1)) by apply agree_set_column.
    assert (G2 : grows df (set_column "amount" DFloat (λ r, neg_cell (cell_at r "amount")) df1))
      by (eapply grows_trans; [exact G1|apply grows_set_column]).
    assert (A2 : Forall2 (agree_except "amount") (rows df)
                   (rows (set_column "amount" DFloat (λ r, neg_cell (cell_at r "amount")) df1)))
      by (eapply agree_trans; [exact A1|apply agree_set_column]).
    destruct (String.eqb _ "positive_for_purchases_negative_for_payments"); [split; assumption|].
    destruct (String.eqb _ "negative_for_debits"); split; assumption.
  - destruct (has_col df debit && has_col df credit);
      [split; [apply grows_set_column|apply agree_set_column]|split; [apply grows_refl|apply agree_refl]].
  - split; [apply grows_refl|apply agree_refl].
Qed.

Lemma load_schema_step (sc : gmap string schema_config) (cf : config_file) (b : string) :
  (match cf with
   | CfgError => sc
   | CfgJson config =>
       match bank_name config with
       | Some b' => if truthy b' then <[b' := config]> sc else sc
       | None => sc
       end
   end) !! b =
  match cf with
  | CfgJson c => if bool_decide (bank_name c = Some b) && truthy b then Some c else sc !! b
  | CfgError => sc !! b
  end.
Proof.
  destruct cf as [|c]; [done|]. destruct (bank_name c) as [b'|] eqn:E.
  - destruct (decide (b' = b)) as [->|Hne].
    + rewrite bool_decide_true by done. simpl.
      destruct (truthy b); [apply lookup_insert_eq|done].
    + rewrite bool_decide_false by congruence. simpl.
      destruct (truthy b'); [by rewrite lookup_insert_ne|done].
  - rewrite bool_decide_false by congruence. done.
Qed.

(** [load_schema_configs]: the config kept for a bank is the one of the
    last readable file naming it; files that fail to load, files without
    a [bank_name] and an empty [bank_name] change nothing, and a missing
    config folder leaves the dict as it was. *)
Theorem load_schema_configs_last_wins (folder_exists : bool) (config_files : list config_file)
    (schema_configs : gmap string schema_config) (b : string) :
  load_schema_configs folder_exists config_files schema_configs !! b =
  if folder_exists then
    match last_config config_files b with
    | Some c => Some c
    | None => schema_configs !! b
    end
  else schema_configs !! b.
Proof.
  unfold load_schema_configs. destruct folder_exists; [|done]. simpl.
  revert schema_configs. induction config_files as [|cf cfs IH]; intros sc; simpl; [done|].
  rewrite IH, load_schema_step. destruct (last_config cfs b); [done|].
  destruct cf as [|c]; [done|]. by destruct (bool_decide _ && truthy b).
Qed.

Lemma grows_copy_column (src : frame) (original common : string) (dst : frame) :
  length (rows dst) = length (rows src) -> grows dst (copy_column src original common dst).
Proof.
  intros Hl. split.
  - unfold copy_column. simpl. rewrite length_zip_with. lia.
  - intros c H. change (has_col (set_column common (default DObject (col_dtype src original))
                                  (λ _, CNA) dst) c = true).
    by rewrite has_col_set_column, H.
Qed.

Lemma grows_copy_columns (df : frame) (cms : list (string * string)) (ndf : frame) :
  grows df ndf -> grows df (copy_columns df cms ndf).
Proof.
  unfold copy_columns. revert ndf. induction cms as [|cm cms IH]; intros ndf G; simpl; [exact G|].
  apply IH. destruct (has_col df cm.2 && negb (String.eqb cm.1 cm.2)); [|exact G].
  eapply grows_trans; [exact G|]. apply grows_copy_column. by destruct G.
Qed.

Lemma grows_normalize_date (to_datetime_fmt : string -> cell -> cell) (to_datetime : cell -> cell)
    (df : frame) (date_col fmt : string) :
  grows df (normalize_date_column to_datetime_fmt to_datetime df date_col fmt).
Proof.
  unfold normalize_date_column. destruct (has_col df date_col); [|apply grows_refl].
  destruct (forallb _ _).
  - eapply grows_trans; apply grows_set_column.
  - apply grows_set_column.
Qed.

Lemma bank_column (bank : string) (df : frame) :
  has_col (set_column "bank" DObject (λ _, CStr bank) df) "bank" = true /\
  Forall (λ r, cell_at r "bank" = CStr bank) (rows (set_column "bank" DObject (λ _, CStr bank) df)).
Proof.
  split; [by rewrite has_col_set_column, String.eqb_refl, orb_true_r|].
  rewrite AmountFacts.rows_set_column. apply List.Forall_map, Forall_forall.
  intros r _. apply AmountFacts.cell_at_insert.
Qed.

Lemma grows_date_step (to_datetime_fmt : string -> cell -> cell) (to_datetime : cell -> cell)
    (df df2 : frame) (cms : list (string * string)) (fmt : string) :
  grows df df2 ->
  grows df (match Category.dict_get cms "date" with
            | Some dc => if truthy dc then normalize_date_column to_datetime_fmt to_datetime df2 dc fmt
                         else df2
            | None => df2
            end).
Proof.
  intros G. destruct (Category.dict_get cms "date") as [dc|]; [|exact G].
  destruct (truthy dc); [|exact G].
  eapply grows_trans; [exact G|apply grows_normalize_date].
Qed.

(** [normalize_dataframe] with a matching, named format: when the
    mapping's truthy [amount_handling] has the keys its [type] reads
    ([column] for [single_column], [debit_column] and [credit_column]
    for [split_columns]) it succeeds, keeps every row and every original
    column, and stamps each row with the bank's name; when one of them is
    missing it raises ([KeyError]). *)
Theorem normalize_dataframe_spec (parse_numeric : string -> option Q)
    (to_datetime_fmt : string -> cell -> cell) (to_datetime : cell -> cell)
    (schema_configs : gmap string schema_config) (df : frame) (bank : string)
    (m : schema_mapping) (name : string) :
  is_empty df = false ->
  detect_csv_format schema_configs df bank = Some m ->
  format_name m = Some name ->
  (amount_keys_ok m = true ->
   exists ndf,
     normalize_dataframe parse_numeric to_datetime_fmt to_datetime schema_configs df bank = Some ndf /\
     grows df ndf /\ has_col ndf "bank" = true /\
     Forall (λ r, cell_at r "bank" = CStr bank) (rows ndf)) /\
  (amount_keys_ok m = false ->
   normalize_dataframe parse_numeric to_datetime_fmt to_datetime schema_configs df bank = None).
Proof.
  intros He Hd Hn. unfold normalize_dataframe. rewrite He, Hd.
  assert (Ht : mapping_truthy m = true) by (unfold mapping_truthy; by rewrite Hn).
  rewrite Ht, Hn. cbn [negb].
  assert (G1 : grows df (copy_columns df (mapping_columns m) df))
    by (apply grows_copy_columns, grows_refl).
  unfold amount_keys_ok.
  destruct (amount_handling m) as [a|];
  [destruct (amount_handling_truthy a); [destruct (amount_config_of a) as [ac|]|]|];
  cbn [negb orb present];
  (split; intros Hk; [|first [discriminate | reflexivity]]); try discriminate;
  (eexists; split; [reflexivity|]);
  match goal with |- grows df (set_column _ _ _ ?df3) /\ _ =>
    destruct (bank_column bank df3) as [B1 B2]; split; [|split; [exact B1|exact B2]] end;
  (eapply grows_trans; [|apply grows_set_column]); apply grows_date_step;
  first [exact G1 | eapply grows_trans; [exact G1|apply normalize_amount_only_amount]].
Qed.

Lemma normalize_dataframe_spec_witness :
  is_empty Fixtures.chase_data = false /\
  detect_csv_format Fixtures.chase_schema Fixtures.chase_data "chase" = Some Fixtures.chase_mapping /\
  format_name Fixtures.chase_mapping = Some "chase_credit_card" /\
  amount_keys_ok Fixtures.chase_mapping = true /\
  exists ndf,
    normalize_dataframe (λ _, None) (λ _ c, c) (λ c, c) Fixtures.chase_schema
      Fixtures.chase_data "chase" = Some ndf /\
    grows Fixtures.chase_data ndf /\ has_col ndf "bank" = true /\
    Forall (λ r, cell_at r "bank" = CStr "chase") (rows ndf).
Proof.
  assert (H1 : is_empty Fixtures.chase_data = false) by reflexivity.
  assert (H2 : detect_csv_format Fixtures.chase_schema Fixtures.chase_data "chase" =
               Some Fixtures.chase_mapping) by reflexivity.
  assert (H3 : format_name Fixtures.chase_mapping = Some "chase_credit_card") by reflexivity.
  assert (H4 : amount_keys_ok Fixtures.chase_mapping = true) by reflexivity.
  split; [exact H1|]. split; [exact H2|]. split; [exact H3|]. split; [exact H4|].
  exact (proj1 (normalize_dataframe_spec (λ _, None) (λ _ c, c) (λ c, c) Fixtures.chase_schema
           Fixtures.chase_data "chase" Fixtures.chase_mapping "chase_credit_card" H1 H2 H3) H4).
Defined.

End BankExtra.

Module BankExtra2.
Import PyStr Bank FrameFacts FilterFacts Schema BankExtra.

(** [normalize_date_column] when the mapped date column is [date]
    itself: the first parse overwrites the column, so when the format
    matches no row the automatic retry re-parses NaT and every date is
    lost, however parseable the original values were (for any other
    column name the retry reads the original strings). *)
Theorem date_retry_reads_overwritten_column (to_datetime_fmt : string -> cell -> cell)
    (to_datetime : cell -> cell) (df : frame) (fmt : string) :
  has_col df "date" = true ->
  Forall (λ r, to_datetime_fmt fmt (cell_at r "date") = CNA) (rows df) ->
  to_datetime CNA = CNA ->
  Forall (λ r, cell_at r "date" = CNA)
    (rows (normalize_date_column to_datetime_fmt to_datetime df "date" fmt)) /\
  (forall date_col, date_col <> "date" -> has_col df date_col = true ->
   Forall (λ r, to_datetime_fmt fmt (cell_at r date_col) = CNA) (rows df) ->
   Forall2 (λ r r', cell_at r' "date" = to_datetime (cell_at r date_col))
     (rows df) (rows (normalize_date_column to_datetime_fmt to_datetime df date_col fmt))).
Proof.
  intros Hc Hf Hna. split.
  - unfold normalize_date_column. rewrite Hc.
    rewrite (AmountFacts.rows_set_column "date" DFloat _ df).
    assert (Hall : forallb (λ r, is_na (cell_at r "date"))
                     (map (λ r, <["date" := to_datetime_fmt fmt (cell_at r "date")]> r) (rows df))
                   = true).
    { apply forallb_forall. intros r Hr. apply in_map_iff in Hr as [r0 [<- Hr0]].
      rewrite AmountFacts.cell_at_insert. rewrite Forall_forall in Hf.
      rewrite (Hf r0) by (by apply list_elem_of_In). reflexivity. }
    rewrite Hall. rewrite AmountFacts.rows_set_column, AmountFacts.rows_set_column, map_map.
    rewrite Forall_forall in Hf.
    apply List.Forall_map, Forall_forall. intros r Hr.
    rewrite !AmountFacts.cell_at_insert, (Hf r Hr). exact Hna.
  - intros dc Hne Hdc Hfd. unfold normalize_date_column. rewrite Hdc.
    rewrite (AmountFacts.rows_set_column "date" DFloat _ df).
    assert (Hall : forallb (λ r, is_na (cell_at r "date"))
                     (map (λ r, <["date" := to_datetime_fmt fmt (cell_at r dc)]> r) (rows df))
                   = true).
    { apply forallb_forall. intros r Hr. apply in_map_iff in Hr as [r0 [<- Hr0]].
      rewrite AmountFacts.cell_at_insert. rewrite Forall_forall in Hfd.
      rewrite (Hfd r0) by (by apply list_elem_of_In). reflexivity. }
    rewrite Hall. rewrite AmountFacts.rows_set_column, AmountFacts.rows_set_column, map_map.
    clear Hall Hfd Hf. induction (rows df) as [|r rs IH]; simpl; [constructor|constructor; [|exact IH]].
    rewrite AmountFacts.cell_at_insert, cell_at_insert_ne by congruence. reflexivity.
Qed.

Lemma date_retry_reads_overwritten_column_witness :
  has_col Fixtures.dated_frame "date" = true /\
  Forall (λ r, (λ _ _, CNA) "%m/%d/%Y" (cell_at r "date") = CNA) (rows Fixtures.dated_frame) /\
  (λ c, match c with CStr _ => CNum 1 | x => x end) CNA = CNA /\
  Forall (λ r, cell_at r "date" = CNA)
    (rows (normalize_date_column (λ _ _, CNA) (λ c, match c with CStr _ => CNum 1 | x => x end)
             Fixtures.dated_frame "date" "%m/%d/%Y")).
Proof.
  assert (H1 : has_col Fixtures.dated_frame "date" = true) by reflexivity.
  assert (H2 : Forall (λ r, (λ _ _, CNA) "%m/%d/%Y" (cell_at r "date") = CNA)
                 (rows Fixtures.dated_frame)) by (repeat constructor).
  assert (H3 : (λ c, match c with CStr _ => CNum 1 | x => x end) CNA = CNA) by reflexivity.
  split; [exact H1|]. split; [exact H2|]. split; [exact H3|].
  exact (proj1 (date_retry_reads_overwritten_column (λ _ _, CNA)
                  (λ c, match c with CStr _ => CNum 1 | x => x end)
                  Fixtures.dated_frame "%m/%d/%Y" H1 H2 H3)).
Defined.

Section KeepKey.
(** A column [k] whose value every row holds. *)
Variable k : string.
Variable v : cell.

Definition holds (rs : list row) : Prop := Forall (λ r, cell_at r k = v) rs.

Lemma holds_set_column (name : string) (dt : dtype) (f : row -> cell) (df : frame) :
  name <> k -> holds (rows df) -> holds (rows (set_column name dt f df)).
Proof.
  intros Hne H. unfold holds. rewrite AmountFacts.rows_set_column. apply List.Forall_map.
  eapply Forall_impl; [exact H|]. intros r Hr. simpl. by rewrite cell_at_insert_ne.
Qed.

Lemma holds_keep (p : row -> bool) (df : frame) :
  holds (rows df) -> holds (rows (keep p df)).
Proof.
  unfold holds, keep. simpl. induction 1 as [|r rs A _ IH]; simpl; [constructor|].
  destruct (p r); [constructor|]; assumption.
Qed.

Lemma holds_copy_column (src : frame) (original common : string) (dst : frame) :
  common <> k -> holds (rows dst) -> holds (rows (copy_column src original common dst)).
Proof.
  intros Hne H. unfold holds, copy_column. simpl. revert H. generalize (rows src).
  induction (rows dst) as [|r rs IH]; intros l H; [constructor|].
  destruct l as [|r0 l]; [constructor|]. simpl. inversion H; subst.
  constructor; [by rewrite cell_at_insert_ne|by apply IH].
Qed.

Lemma holds_copy_columns (df : frame) (cms : list (string * string)) (ndf : frame) :
  ~ In k (map fst cms) -> holds (rows ndf) -> holds (rows (copy_columns df cms ndf)).
Proof.
  unfold copy_columns. revert ndf. induction cms as [|cm cms IH]; intros ndf Hk H; simpl; [exact H|].
  destruct cm as [common original]. simpl in Hk |- *. apply IH; [tauto|].
  destruct (has_col df original && negb (String.eqb common original)); [|exact H].
  apply holds_copy_column; [intros ->; tauto|exact H].
Qed.

Lemma holds_amount (parse_numeric : string -> option Q) (df : frame) (cfg : amount_config) :
  "amount" <> k -> holds (rows df) -> holds (rows (normalize_amount_column parse_numeric df cfg)).
Proof.
  intros Hne H. destruct cfg as [col sc|debit credit|t]; simpl.
  - destruct (has_col df col); [|exact H].
    assert (H1 := holds_set_column "amount" DFloat
                    (λ r, of_num (to_numeric parse_numeric (cell_at r col))) df Hne H).
    destruct (String.eqb _ "positive_for_purchases_negative_for_payments"); [exact H1|].
    destruct (String.eqb _ "negative_for_debits"); [|exact H1].
    by apply holds_set_column.
  - destruct (has_col df debit && has_col df credit); [by apply holds_set_column|exact H].
  - exact H.
Qed.

Lemma holds_date (to_datetime_fmt : string -> cell -> cell) (to_datetime : cell -> cell)
    (df : frame) (date_col fmt : string) :
  "date" <> k -> holds (rows df) ->
  holds (rows (normalize_date_column to_datetime_fmt to_datetime df date_col fmt)).
Proof.
  intros Hne H. unfold normalize_date_column. destruct (has_col df date_col); [|exact H].
  destruct (forallb _ _); repeat apply holds_set_column; assumption.
Qed.

Lemma holds_normalize (parse_numeric : string -> option Q)
    (to_datetime_fmt : string -> cell -> cell) (to_datetime : cell -> cell)
    (schema_configs : gmap string schema_config) (df : frame) (bank : string) (ndf : frame) :
  "amount" <> k -> "date" <> k -> "bank" <> k ->
  (forall config m, schema_configs !! bank = Some config ->
     In m (default [] (schema_mappings config)) -> ~ In k (map fst (mapping_columns m))) ->
  holds (rows df) ->
  normalize_dataframe parse_numeric to_datetime_fmt to_datetime schema_configs df bank = Some ndf ->
  holds (rows ndf).
Proof.
  intros Ha Hd Hb Hm H. unfold normalize_dataframe.
  destruct (is_empty df); [intros [= <-]; exact H|].
  unfold detect_csv_format.
  destruct (schema_configs !! bank) as [config|] eqn:Ec; [|intros [= <-]; exact H].
  destruct (List.find _ _) as [m|] eqn:Ef; [|intros [= <-]; exact H].
  apply List.find_some in Ef as [Hin _].
  pose proof (Hm config m eq_refl Hin) as Hk.
  destruct (mapping_truthy m); [|intros [= <-]; exact H]. simpl.
  destruct (format_name m); [|discriminate].
  assert (H1 : holds (rows (copy_columns df (mapping_columns m) df)))
    by (by apply holds_copy_columns).
  assert (H2 : forall df2, match amount_handling m with
                           | Some a =>
                               if amount_handling_truthy a then
                                 match amount_config_of a with
                                 | Some ac => Some (normalize_amount_column parse_numeric
                                                      (copy_columns df (mapping_columns m) df) ac)
                                 | None => None
                                 end
                               else Some (copy_columns df (mapping_columns m) df)
                           | None => Some (copy_columns df (mapping_columns m) df)
                           end = Some df2 -> holds (rows df2)).
  { intros df2. destruct (amount_handling m) as [a|]; [|intros [= <-]; exact H1].
    destruct (amount_handling_truthy a); [|intros [= <-]; exact H1].
    destruct (amount_config_of a); [|discriminate]. intros [= <-]. by apply holds_amount. }
  destruct (match amount_handling m with
            | Some a => _ | None => _ end) as [df2|]; [|discriminate].
  specialize (H2 df2 eq_refl). intros [= <-].
  apply holds_set_column; [exact Hb|].
  destruct (Category.dict_get (mapping_columns m) "date") as [dc|]; [|exact H2].
  destruct (truthy dc); [by apply holds_date|exact H2].
Qed.

End KeepKey.

Lemma forall_concat {A} (P : A -> Prop) (ls : list (list A)) :
  Forall (Forall P) ls -> Forall P (List.concat ls).
Proof. induction 1; simpl; [constructor|]. by apply Forall_app. Qed.

(** [read_bank_statements]: every row of the result carries, in
    [source_file], the basename of a CSV file of the bank folder, as long
    as no column mapping of the bank renames a column to [source_file];
    files that cannot be read or processed are skipped. *)
Theorem read_bank_statements_source_file (parse_numeric : string -> option Q)
    (to_datetime_fmt : string -> cell -> cell) (to_datetime : cell -> cell)
    (filter_payments : bool) (schema_configs : gmap string schema_config) (bank : string)
    (csv_files : list csv_file) :
  (forall config m, schema_configs !! bank = Some config ->
     In m (default [] (schema_mappings config)) -> ~ In "source_file" (map fst (mapping_columns m))) ->
  Forall (λ r, exists basename df, In (CsvFrame basename df) csv_files /\
                                   cell_at r "source_file" = CStr basename)
    (rows (read_bank_statements parse_numeric to_datetime_fmt to_datetime filter_payments
             schema_configs bank csv_files)).
Proof.
  intros Hm.
  assert (Hone : forall f ndf, In f csv_files ->
            read_one parse_numeric to_datetime_fmt to_datetime filter_payments schema_configs bank f
              = Some ndf ->
            Forall (λ r, exists basename df, In (CsvFrame basename df) csv_files /\
                                             cell_at r "source_file" = CStr basename) (rows ndf)).
  { intros [|b df] ndf Hin; simpl; [discriminate|].
    set (df0 := set_column "source_file" DObject (λ _, CStr b) df).
    assert (H0 : holds "source_file" (CStr b) (rows df0)).
    { unfold holds, df0. rewrite AmountFacts.rows_set_column. apply List.Forall_map, Forall_forall.
      intros r _. apply AmountFacts.cell_at_insert. }
    assert (Hf : forall df1, (if filter_payments
                              then filter_credit_card_payments filter_payments df0 bank
                              else Some df0) = Some df1 -> holds "source_file" (CStr b) (rows df1)).
    { intros df1. destruct filter_payments; [|intros [= <-]; exact H0].
      intros Hfl. pose proof (filter_ccp_result true df0 bank) as R. rewrite Hfl in R. subst df1.
      destruct (is_empty df0 || negb true); [exact H0|by apply holds_keep]. }
    destruct (if filter_payments then filter_credit_card_payments filter_payments df0 bank
              else Some df0) as [df1|]; [|discriminate].
    intros Hn. eapply Forall_impl.
    - apply (holds_normalize "source_file" (CStr b) parse_numeric to_datetime_fmt to_datetime
               schema_configs df1 bank ndf); try discriminate; [exact Hm|by apply Hf|exact Hn].
    - intros r Hr. exists b, df. split; [exact Hin|exact Hr]. }
  unfold read_bank_statements.
  assert (Hall : forall ndf, In ndf (omap (read_one parse_numeric to_datetime_fmt to_datetime
                                            filter_payments schema_configs bank) csv_files) ->
                 exists f, In f csv_files /\
                   read_one parse_numeric to_datetime_fmt to_datetime filter_payments
                     schema_configs bank f = Some ndf).
  { clear Hone Hm. induction csv_files as [|f fs IH]; simpl; [tauto|].
    destruct (read_one _ _ _ _ _ _ f) as [x|] eqn:E; simpl.
    - intros ndf [<-|H]; [exists f; by split; [left|]|].
      destruct (IH ndf H) as [f' [A B]]. exists f'. by split; [right|].
    - intros ndf H. destruct (IH ndf H) as [f' [A B]]. exists f'. by split; [right|]. }
  destruct (omap _ csv_files) as [|ndf0 ndfs] eqn:E; [constructor|].
  unfold pd_concat. cbn [rows]. apply forall_concat. apply List.Forall_map, Forall_forall.
  intros ndf Hin. apply list_elem_of_In in Hin. destruct (Hall ndf Hin) as [f [A B]].
  exact (Hone f ndf A B).
Qed.

Lemma read_bank_statements_source_file_witness :
  (forall config m, Fixtures.chase_schema !! "chase" = Some config ->
     In m (default [] (schema_mappings config)) -> ~ In "source_file" (map fst (mapping_columns m))) /\
  Forall (λ r, exists basename df,
                 In (CsvFrame basename df) [CsvError; CsvFrame "july.csv" Fixtures.chase_data] /\
                 cell_at r "source_file" = CStr basename)
    (rows (read_bank_statements (λ _, None) (λ _ c, c) (λ c, c) true Fixtures.chase_schema "chase"
             [CsvError; CsvFrame "july.csv" Fixtures.chase_data])).
Proof.
  assert (H : forall config m, Fixtures.chase_schema !! "chase" = Some config ->
     In m (default [] (schema_mappings config)) -> ~ In "source_file" (map fst (mapping_columns m))).
  { intros config m Hc Hin. vm_compute in Hc. injection Hc as <-.
    simpl in Hin. destruct Hin as [<-|[]]. simpl. intuition discriminate. }
  split; [exact H|]. by apply read_bank_statements_source_file.
Defined.

Lemma holds_combine (cols : list string) (acc : frame) :
  let R := fold_left (λ acc col, if has_col acc col then acc
                                 else set_column col DObject (λ _, CNA) acc) cols acc in
  grows acc R /\ forall c, In c cols -> has_col R c = true.
Proof.
  revert acc. induction cols as [|col cols IH]; intros acc; simpl; [split; [apply grows_refl|tauto]|].
  destruct (has_col acc col) eqn:E.
  - destruct (IH acc) as [G H]. split; [exact G|]. intros c [<-|Hc]; [by apply G|by apply H].
  - destruct (IH (set_column col DObject (λ _, CNA) acc)) as [G H]. split.
    + eapply grows_trans; [apply grows_set_column|exact G].
    + intros c [<-|Hc]; [|by apply H]. apply G.
      by rewrite has_col_set_column, String.eqb_refl, orb_true_r.
Qed.

(** [get_combined_data]: with no non-empty frame it is the empty frame;
    otherwise it has the six common columns and exactly the rows of the
    non-empty frames. *)
Theorem get_combined_data_spec (bank_data : list (string * frame)) :
  let nonempty := List.filter (λ df, negb (is_empty df)) (map snd bank_data) in
  (nonempty = [] -> get_combined_data bank_data = empty_frame) /\
  (nonempty <> [] ->
   Forall (λ c, has_col (get_combined_data bank_data) c = true) common_columns /\
   length (rows (get_combined_data bank_data)) = list_sum (map (λ df, length (rows df)) nonempty)).
Proof.
  simpl. unfold get_combined_data.
  destruct (List.filter _ (map snd bank_data)) as [|df0 dfs] eqn:E; [split; [done|congruence]|].
  split; [discriminate|]. intros _.
  destruct (holds_combine common_columns (pd_concat (df0 :: dfs))) as [[G1 _] H].
  split.
  - apply Forall_forall. intros c Hc. apply H. by apply list_elem_of_In.
  - rewrite G1. unfold pd_concat. simpl. rewrite length_app, length_concat, map_map. reflexivity.
Qed.

End BankExtra2.

Module BackupExtra.
Import NotesHeap.

(** [backup_notes] copies [self.notes_data] shallowly, so the
    [backup_created] key it adds lands in the live metadata dict too:
    after a backup, successful or not, the store's own metadata (which
    the next save writes to the notes file) carries [backup_created]. *)
Theorem backup_mutates_live_metadata (now : string) (write_ok : bool) (self_loc fresh ml : loc)
    (o mo : obj) (h : heap) :
  h !! self_loc = Some o -> o !! "metadata" = Some (VRef ml) -> h !! ml = Some mo ->
  h !! fresh = None -> ml <> self_loc ->
  let '(ok, h') := backup_notes now write_ok self_loc fresh h in
  ok = write_ok /\
  h' !! self_loc = Some o /\
  h' !! ml = Some (<["backup_created" := VStr now]> mo).
Proof.
  intros Hs Hm Hml Hf Hne. unfold backup_notes. rewrite Hs, Hm. cbv zeta.
  assert (Hfs : fresh <> self_loc) by congruence.
  assert (Hfm : fresh <> ml) by congruence.
  rewrite lookup_insert_ne by exact Hfm. rewrite Hml.
  split; [done|]. split; [|apply lookup_insert_eq].
  rewrite lookup_insert_ne by exact Hne. by rewrite lookup_insert_ne.
Qed.

Lemma backup_mutates_live_metadata_witness :
  Fixtures.live_heap !! 0 = Some {[ "metadata" := VRef 1 ]} /\
  ({[ "metadata" := VRef 1 ]} : obj) !! "metadata" = Some (VRef 1) /\
  Fixtures.live_heap !! 1 = Some {[ "version" := VStr "1.0" ]} /\
  Fixtures.live_heap !! 2 = None /\ 1 <> 0 /\
  (let '(ok, h') := backup_notes "2025-07-14" false 0 2 Fixtures.live_heap in
   ok = false /\ h' !! 0 = Some {[ "metadata" := VRef 1 ]} /\
   h' !! 1 = Some (<["backup_created" := VStr "2025-07-14"]> {[ "version" := VStr "1.0" ]})).
Proof.
  assert (H1 : Fixtures.live_heap !! 0 = Some {[ "metadata" := VRef 1 ]}) by reflexivity.
  assert (H2 : ({[ "metadata" := VRef 1 ]} : obj) !! "metadata" = Some (VRef 1)) by reflexivity.
  assert (H3 : Fixtures.live_heap !! 1 = Some {[ "version" := VStr "1.0" ]}) by reflexivity.
  assert (H4 : Fixtures.live_heap !! 2 = None) by reflexivity.
  assert (H5 : 1 <> 0) by lia.
  split; [exact H1|]. split; [exact H2|]. split; [exact H3|]. split; [exact H4|].
  split; [exact H5|].
  exact (backup_mutates_live_metadata "2025-07-14" false 0 2 1 _ _ Fixtures.live_heap
           H1 H2 H3 H4 H5).
Defined.

End BackupExtra.
